(** * ec2pricing: the on-demand and spot price caches, and the spot averager

    A shallow embedding of [pkg/ec2pricing/ec2pricing.go].

    - [float64] is the kernel's binary64 ([PrimFloat.float]); its single
      NaN stands for every NaN payload of the hardware. Every operation
      is rounded on its own, as the Go compiler does on amd64 (no fused
      multiply-add).
    - [time.Time] is an instant, counted in nanoseconds on one time line;
      [time.Duration] is a 64-bit count of nanoseconds. What [time.Now()]
      reads is an argument of the method that reads it.
    - Go maps are [gmap]s; the order in which [range] visits a map and the
      result of [sort.Slice] are services of the runtime, fixed only up to
      their contracts (class [Runtime]), as are [strconv.ParseFloat] and
      the table of regions.
    - The two AWS clients are functions from a request to what a paged
      call delivers: the pages, and the error that ends the fetch.
    - A failed type assertion or a nil dereference is a panic
      ([Panicked]); methods on [*EC2Pricing] return the receiver as they
      leave it. *)

From Stdlib Require Import ZArith Floats Uint63.
From stdpp Require Import gmap strings list fin_maps sorting.

Set Warnings "-register-all,-inexact-float".
Open Scope Z_scope.

(** ** float64 *)

Module float64.

(** [float64(n)] for an integer [n] of magnitude below [2^63]. *)
Definition of_Z (n : Z) : float :=
  if n <? 0 then PrimFloat.opp (PrimFloat.of_uint63 (Uint63.of_Z (- n)))
  else PrimFloat.of_uint63 (Uint63.of_Z n).

Definition zero : float := of_Z 0.

End float64.

(** ** package time *)

Module time.

(** An instant, in nanoseconds. *)
Definition Time := Z.

(** A duration, in nanoseconds, within the 64-bit range. *)
Definition Duration := Z.

Definition minDuration : Duration := - 2 ^ 63.
Definition maxDuration : Duration := 2 ^ 63 - 1.

Definition Nanosecond : Duration := 1.
Definition Second : Duration := 1000000000.
Definition Minute : Duration := 60 * Second.
Definition Hour : Duration := 60 * Minute.

(** [t.After(u)] *)
Definition After (t u : Time) : bool := u <? t.

(** [t.Sub(u)]: the difference, saturated at the 64-bit bounds. *)
Definition Sub (t u : Time) : Duration :=
  let d := t - u in
  if d <? minDuration then minDuration
  else if maxDuration <? d then maxDuration
  else d.

(** [d.Minutes()]: whole minutes plus the fraction, both converted
    exactly ([Z.quot] and [Z.rem] truncate toward zero, as Go does). *)
Definition Minutes (d : Duration) : float :=
  let min := Z.quot d Minute in
  let nsec := Z.rem d Minute in
  (float64.of_Z min + float64.of_Z nsec / float64.of_Z (60 * 1000000000))%float.

(** 64-bit wrap-around of integer arithmetic. *)
Definition wrap64 (n : Z) : Z := (n + 2 ^ 63) mod 2 ^ 64 - 2 ^ 63.

(** [t.Add(d)] *)
Definition Add (t : Time) (d : Duration) : Time := t + d.

End time.

(** ** Errors *)

(** The error values the package produces or passes on. *)
Inductive error :=
| TransportError (msg : string)      (* an error of the AWS client *)
| NumError (num : string)            (* strconv.ParseFloat rejecting [num] *)
| Errorf (msg : string)              (* fmt.Errorf *)
| MultiError (errors : list error).  (* multierr's combined error *)

Module multierr.

Definition errorsOf (e : error) : list error :=
  match e with
  | MultiError es => es
  | _ => [e]
  end.

(** [multierr.Append(left, right)]: nil is neutral, two errors are
    combined into one flat [MultiError]. *)
Definition Append (left right : option error) : option error :=
  match left, right with
  | None, _ => right
  | _, None => left
  | Some l, Some r => Some (MultiError (errorsOf l ++ errorsOf r))
  end.

End multierr.

(** ** Panics *)

Inductive outcome (A : Type) :=
| Returned (a : A)
| Panicked.
Arguments Returned {A} a.
Arguments Panicked {A}.

#[export] Instance outcome_ret : MRet outcome := @Returned.
#[export] Instance outcome_bind : MBind outcome := λ A B f m,
  match m with
  | Returned a => f a
  | Panicked => Panicked
  end.

(** [*ptr] *)
Definition deref {A} (ptr : option A) : outcome A :=
  match ptr with
  | Some a => Returned a
  | None => Panicked
  end.

(** ** The runtime *)

(** [less] is a strict weak order, which [sort.Slice] asks for. *)
Definition StrictWeak {A} (less : A → A → bool) : Prop :=
  (∀ x y, less x y = true → less y x = false) ∧
  (∀ x y z, less x y = false → less y z = false → less x z = false).

Class Runtime := {
  (** [sort.Slice]: some permutation of the slice that [less] leaves in
      order; which one, among equal elements, is not specified. *)
  sortSlice : ∀ {A}, (A → A → bool) → list A → list A;
  sortSlice_perm : ∀ A (less : A → A → bool) l, sortSlice less l ≡ₚ l;
  sortSlice_sorted : ∀ A (less : A → A → bool) l,
    StrictWeak less →
    ∀ (i j : nat) x y, (i < j)%nat →
      sortSlice less l !! i = Some x → sortSlice less l !! j = Some y →
      less y x = false;
  (** [range] over a map: every entry once, in an unspecified order. *)
  rangeMap : ∀ {A}, gmap string A → list (string * A);
  rangeMap_perm : ∀ A (m : gmap string A), rangeMap m ≡ₚ map_to_list m;
  (** [strconv.ParseFloat(s, 64)]: the value, or [None] where strconv
      returns its [*NumError] for [s], written [NumError s] below. *)
  ParseFloat : string → option float;
  (** [endpoints.DefaultResolver()]'s partitions: for each one, its
      regions with their descriptions. *)
  Partitions : list (gmap string string);
}.

(** ** The spot averager *)

Record spotPricingEntry := {
  Timestamp : time.Time;
  SpotPrice : float;
}.

#[export] Instance spotPricingEntry_inhabited : Inhabited spotPricingEntry :=
  populate {| Timestamp := 0; SpotPrice := float64.zero |}.

(** [int(math.Max(float64(i-1), 0))] *)
Definition prevIndex (i : nat) : nat := Z.to_nat (Z.max (Z.of_nat i - 1) 0).

Definition byTimestampDesc (a b : spotPricingEntry) : bool :=
  time.After (Timestamp a) (Timestamp b).

Section Averager.
Context `{Runtime}.

Definition calculateSpotAggregate (spotPriceEntries : list spotPricingEntry) : float :=
  if (length spotPriceEntries =? 0)%nat then float64.zero
  else
    let spotPriceEntries := sortSlice byTimestampDesc spotPriceEntries in
    let endTime := Timestamp (spotPriceEntries !!! 0%nat) in
    let startTime :=
      Timestamp (spotPriceEntries !!! (length spotPriceEntries - 1)%nat) in
    let totalDuration := time.Minutes (time.Sub endTime startTime) in
    let priceSum :=
      fold_left
        (λ priceSum '(i, entry),
           let duration :=
             time.Minutes
               (time.Sub (Timestamp (spotPriceEntries !!! prevIndex i))
                         (Timestamp entry)) in
           (priceSum + duration * SpotPrice entry)%float)
        (imap pair spotPriceEntries) float64.zero in
    (priceSum / totalDuration)%float.

End Averager.

(** ** package strings *)

Module strings.

(** [strings.Join(elems, sep)] *)
Definition Join (elems : list string) (sep : string) : string :=
  String.concat sep elems.

(** [strings.Contains(s, substr)]: [substr] occurs somewhere in [s]. *)
Fixpoint Contains (s substr : string) : bool :=
  String.prefix substr s ||
  match s with
  | EmptyString => false
  | String _ s' => Contains s' substr
  end.

End strings.

(** ** The AWS clients *)

(** What a paged call delivers: the pages fetched, and the error that
    ended the fetch, if one did. *)
Record paged (P : Type) := {
  pages : list P;
  failure : option error;
}.
Arguments pages {P} _.
Arguments failure {P} _.

(** [client.XxxPages(input, fn)]: [fn] sees the pages in order until it
    returns false or they run out; breaking off early leaves no error. *)
Fixpoint runPages {P S} (ps : list P) (failure : option error)
    (fn : P → S → outcome (S * bool)) (st : S) : outcome (S * option error) :=
  match ps with
  | [] => Returned (st, failure)
  | pg :: rest =>
      '(st', more) ← fn pg st;
      if more : bool then runPages rest failure fn st'
      else Returned (st', None)
  end.

(** [for _, x := range xs { body }] over a slice, the body may panic. *)
Fixpoint forEach {X S} (xs : list X) (body : X → S → outcome S) (st : S)
    : outcome S :=
  match xs with
  | [] => Returned st
  | x :: rest => st' ← body x st; forEach rest body st'
  end.

Module ec2.

(** [ec2.SpotPrice], one price-change event; its fields are pointers. *)
Record SpotPriceT := {
  AvailabilityZone : option string;
  InstanceType : option string;
  SpotPrice : option string;
  Timestamp : option time.Time;
}.

Record DescribeSpotPriceHistoryInput := {
  ProductDescriptions : list string;
  StartTime : time.Time;
  EndTime : time.Time;
  InstanceTypes : list string;
}.

Record DescribeSpotPriceHistoryOutput := {
  SpotPriceHistory : list SpotPriceT;
}.

End ec2.

(** [interface{}] values as a JSON document decodes to them. *)
Inductive jvalue :=
| JNil
| JBool (b : bool)
| JNumber (f : float)
| JString (s : string)
| JArray (elems : list jvalue)
| JObject (fields : gmap string jvalue).

Module pricing.

Definition FilterTypeTermMatch : string := "TERM_MATCH".

Record Filter := {
  Type_ : string;
  Field : string;
  Value : string;
}.

Record GetProductsInput := {
  ServiceCode : string;
  Filters : list Filter;
}.

(** [aws.JSONValue] is [map[string]interface{}]. *)
Record GetProductsOutput := {
  PriceList : list (gmap string jvalue);
}.

End pricing.

(** ** EC2Pricing *)

Definition defaultSpotDaysBack : Z := 30.
Definition productDescription : string := "Linux/UNIX (Amazon VPC)".
Definition serviceCode : string := "AmazonEC2".

Record EC2Pricing := {
  PricingClient : pricing.GetProductsInput → paged pricing.GetProductsOutput;
  EC2Client : ec2.DescribeSpotPriceHistoryInput →
              paged ec2.DescribeSpotPriceHistoryOutput;
  (** [AWSSession.Config.Region] *)
  AWSSession : option string;
  onDemandCache : gmap string float;
  spotCache : gmap string (gmap string (list spotPricingEntry));
  lastOnDemandCacheUTC : option time.Time;
  lastSpotCacheUTC : option time.Time;
}.

Definition LastOnDemandCacheUTC (p : EC2Pricing) : option time.Time :=
  lastOnDemandCacheUTC p.

Definition LastSpotCacheUTC (p : EC2Pricing) : option time.Time :=
  lastSpotCacheUTC p.

(** The four assignments to the caches and their timestamps. *)
Definition setOnDemandCache (cache : gmap string float) (p : EC2Pricing)
    : EC2Pricing :=
  {| PricingClient := PricingClient p;
     EC2Client := EC2Client p;
     AWSSession := AWSSession p;
     onDemandCache := cache;
     spotCache := spotCache p;
     lastOnDemandCacheUTC := lastOnDemandCacheUTC p;
     lastSpotCacheUTC := lastSpotCacheUTC p |}.

Definition setLastOnDemandCacheUTC (t : option time.Time) (p : EC2Pricing)
    : EC2Pricing :=
  {| PricingClient := PricingClient p;
     EC2Client := EC2Client p;
     AWSSession := AWSSession p;
     onDemandCache := onDemandCache p;
     spotCache := spotCache p;
     lastOnDemandCacheUTC := t;
     lastSpotCacheUTC := lastSpotCacheUTC p |}.

Definition setSpotCache (cache : gmap string (gmap string (list spotPricingEntry)))
    (p : EC2Pricing) : EC2Pricing :=
  {| PricingClient := PricingClient p;
     EC2Client := EC2Client p;
     AWSSession := AWSSession p;
     onDemandCache := onDemandCache p;
     spotCache := cache;
     lastOnDemandCacheUTC := lastOnDemandCacheUTC p;
     lastSpotCacheUTC := lastSpotCacheUTC p |}.

Definition setLastSpotCacheUTC (t : option time.Time) (p : EC2Pricing)
    : EC2Pricing :=
  {| PricingClient := PricingClient p;
     EC2Client := EC2Client p;
     AWSSession := AWSSession p;
     onDemandCache := onDemandCache p;
     spotCache := spotCache p;
     lastOnDemandCacheUTC := lastOnDemandCacheUTC p;
     lastSpotCacheUTC := t |}.

(** [m[k] = append(m[k], e)] *)
Definition appendAt {V} (k : string) (e : V) (m : gmap string (list V))
    : gmap string (list V) :=
  <[k := (m !!! k) ++ [e]]> m.

(** A type assertion [v.(map[string]interface{})] without the ok form:
    it panics on nil and on every other dynamic type. *)
Definition asMap (v : option jvalue) : outcome (gmap string jvalue) :=
  match v with
  | Some (JObject m) => Returned m
  | _ => Panicked
  end.

(** [v.(string)] without the ok form. *)
Definition asString (v : jvalue) : outcome string :=
  match v with
  | JString s => Returned s
  | _ => Panicked
  end.

Definition minusOne : float := (-1)%float.

Section Pricing.
Context `{Runtime}.

(** *** GetSpotInstanceTypeNDayAvgCost *)

(** The callback of lines 96-111: one page of spot history merged into
    the working set; a price that does not parse is recorded and
    skipped. *)
Definition spotQueryPage (dspho : ec2.DescribeSpotPriceHistoryOutput)
    (st : gmap string (list spotPricingEntry) * option error)
    : outcome ((gmap string (list spotPricingEntry) * option error) * bool) :=
  st' ← forEach (ec2.SpotPriceHistory dspho)
    (λ history '(zoneToPriceEntries, processingErr),
       str ← deref (ec2.SpotPrice history);
       match ParseFloat str with
       | None =>
           Returned (zoneToPriceEntries,
                     multierr.Append processingErr (Some (NumError str)))
       | Some spotPrice =>
           zone ← deref (ec2.AvailabilityZone history);
           ts ← deref (ec2.Timestamp history);
           Returned (appendAt zone {| Timestamp := ts; SpotPrice := spotPrice |}
                              zoneToPriceEntries,
                     processingErr)
       end) st;
  Returned (st', true).

(** Lines 119-126: the cached series of one instance type, copied zone
    by zone into the working set. *)
Definition copyCachedZones (cached : gmap string (list spotPricingEntry))
    : gmap string (list spotPricingEntry) :=
  fold_left
    (λ zoneToPriceEntries '(zone, priceEntries),
       fold_left
         (λ zoneToPriceEntries entry,
            appendAt zone {| Timestamp := Timestamp entry;
                             SpotPrice := SpotPrice entry |}
                     zoneToPriceEntries)
         priceEntries zoneToPriceEntries)
    (rangeMap cached) ∅.

(** Lines 129-141: the loop over the zones and the final division. *)
Definition averageOverZones
    (zoneToPriceEntries : gmap string (list spotPricingEntry))
    (availabilityZones : list string) : float :=
  let '(aggregateZonePriceSum, numOfZones) :=
    fold_left
      (λ '(aggregateZonePriceSum, numOfZones) '(zone, priceEntries),
         if negb (length availabilityZones =? 0)%nat
            && negb (strings.Contains (strings.Join availabilityZones " ") zone)
         then (aggregateZonePriceSum, numOfZones)
         else ((aggregateZonePriceSum + calculateSpotAggregate priceEntries)%float,
               numOfZones + 1))
      (rangeMap zoneToPriceEntries) (float64.zero, 0) in
  (aggregateZonePriceSum / float64.of_Z numOfZones)%float.

(** The request of lines 83-91 and 217-223: the window of [days] days
    that ends at [endTime], for the given instance types. *)
Definition spotPriceHistInput (endTime : time.Time) (days : Z)
    (instanceTypes : list string) : ec2.DescribeSpotPriceHistoryInput :=
  let startTime :=
    time.Add endTime (time.wrap64 (time.Hour * time.wrap64 (24 * -1 * days))) in
  {| ec2.ProductDescriptions := [productDescription];
     ec2.StartTime := startTime;
     ec2.EndTime := endTime;
     ec2.InstanceTypes := instanceTypes |}.

(** [now] is what [time.Now()] reads at line 83. *)
Definition GetSpotInstanceTypeNDayAvgCost (p : EC2Pricing) (now : time.Time)
    (instanceType : string) (availabilityZones : list string) (days : Z)
    : outcome ((float * option error) * EC2Pricing) :=
  let endTime := now in
  match spotCache p !! instanceType with
  | None =>
      let fetched := EC2Client p (spotPriceHistInput endTime days [instanceType]) in
      '((zoneToPriceEntries, processingErr), errAPI) ←
        runPages (pages fetched) (failure fetched) spotQueryPage (∅, None);
      match errAPI, processingErr with
      | Some e, _ => Returned ((minusOne, Some e), p)
      | None, Some e => Returned ((minusOne, Some e), p)
      | None, None =>
          Returned ((averageOverZones zoneToPriceEntries availabilityZones, None), p)
      end
  | Some cached =>
      let zoneToPriceEntries := copyCachedZones cached in
      Returned ((averageOverZones zoneToPriceEntries availabilityZones, None), p)
  end.

(** *** parseOndemandUnitPrice *)

(** The loop of lines 331-353 over the on-demand terms, in the order
    [range] visits them: the first term decides, unless its price
    dimensions are an empty map, which the loop steps over. *)
Fixpoint parseOndemandTerms (instanceTypeName : string)
    (terms : list (string * jvalue)) : outcome (string * float * option error) :=
  match terms with
  | [] =>
      Returned (instanceTypeName, minusOne,
                Some (Errorf "Unable to parse pricing doc"))
  | (_, priceDimensions) :: rest =>
      term ← asMap (Some priceDimensions);
      match term !! "priceDimensions" with
      | None =>
          Returned (instanceTypeName, minusOne,
                    Some (Errorf "Unable to find on-demand pricing dimensions"))
      | Some dim =>
          dimMap ← asMap (Some dim);
          match rangeMap dimMap with
          | [] => parseOndemandTerms instanceTypeName rest
          | (_, dimension) :: _ =>
              dims ← asMap (Some dimension);
              match dims !! "pricePerUnit" with
              | None =>
                  Returned (instanceTypeName, minusOne,
                    Some (Errorf "Unable to find on-demand price per unit in pricing dimensions"))
              | Some pricePerUnit =>
                  perUnit ← asMap (Some pricePerUnit);
                  match perUnit !! "USD" with
                  | None =>
                      Returned (instanceTypeName, minusOne,
                        Some (Errorf "Unable to find on-demand price per unit in USD"))
                  | Some pricePerUnitInUSDStr =>
                      str ← asString pricePerUnitInUSDStr;
                      match ParseFloat str with
                      | None =>
                          Returned (instanceTypeName, minusOne,
                            Some (Errorf "Could not convert price per unit in USD to a float64"))
                      | Some pricePerUnitInUSD =>
                          Returned (instanceTypeName, pricePerUnitInUSD, None)
                      end
                  end
              end
          end
      end
  end.

Definition parseOndemandUnitPrice (priceList : gmap string jvalue)
    : outcome (string * float * option error) :=
  product ← asMap (priceList !! "product");
  match product !! "attributes" with
  | None =>
      Returned (EmptyString, minusOne, Some (Errorf "Unable to find product attributes"))
  | Some attributes =>
      attrs ← asMap (Some attributes);
      match attrs !! "instanceType" with
      | Some (JString instanceTypeName) =>
          match priceList !! "terms" with
          | None =>
              Returned (instanceTypeName, minusOne,
                        Some (Errorf "Unable to find pricing terms"))
          | Some terms =>
              termsMap ← asMap (Some terms);
              match termsMap !! "OnDemand" with
              | None =>
                  Returned (instanceTypeName, minusOne,
                            Some (Errorf "Unable to find on-demand pricing terms"))
              | Some ondemandTerms =>
                  onDemand ← asMap (Some ondemandTerms);
                  parseOndemandTerms instanceTypeName (rangeMap onDemand)
              end
          end
      | _ =>
          Returned (EmptyString, minusOne,
                    Some (Errorf "Unable to find instance type name from product attributes"))
      end
  end.

(** *** getRegionForPricingAPI *)

Definition getRegionForPricingAPI (p : EC2Pricing) : outcome string :=
  forEach Partitions
    (λ regions regionDescription,
       region ← deref (AWSSession p);
       Returned (match regions !! region with
                 | Some description => description
                 | None => regionDescription
                 end))
    "US East (N. Virginia)"%string.

Definition termMatch (field value : string) : pricing.Filter :=
  {| pricing.Type_ := pricing.FilterTypeTermMatch;
     pricing.Field := field;
     pricing.Value := value |}.

(** The six filters both on-demand requests share. *)
Definition catalogFilters (regionDescription : string) : list pricing.Filter :=
  [ termMatch "ServiceCode" serviceCode;
    termMatch "operatingSystem" "linux";
    termMatch "location" regionDescription;
    termMatch "capacitystatus" "used";
    termMatch "preInstalledSw" "NA";
    termMatch "tenancy" "shared" ].

(** The request of lines 174-185 and 260-270; the query adds the
    instance type to the filters. *)
Definition productInput (regionDescription : string)
    (instanceType : option string) : pricing.GetProductsInput :=
  {| pricing.ServiceCode := serviceCode;
     pricing.Filters :=
       catalogFilters regionDescription
       ++ match instanceType with
          | Some it => [termMatch "instanceType" it]
          | None => []
          end |}.

(** *** GetOndemandInstanceTypeCost *)

(** The callback of lines 189-200, on the documents of one page: the
    first document that fails to parse is recorded and asks for the
    next page; a page read to its end stops the paging. *)
Fixpoint onDemandQueryDocs (priceList : list (gmap string jvalue))
    (st : float * option error) : outcome ((float * option error) * bool) :=
  match priceList with
  | [] => Returned (st, false)
  | priceDoc :: rest =>
      '(_, pricePerUnitInUSD, errParse) ← parseOndemandUnitPrice priceDoc;
      match errParse with
      | Some e =>
          Returned ((pricePerUnitInUSD, multierr.Append (snd st) (Some e)), true)
      | None => onDemandQueryDocs rest (pricePerUnitInUSD, snd st)
      end
  end.

Definition onDemandQueryPage (pricingOutput : pricing.GetProductsOutput)
    (st : float * option error) : outcome ((float * option error) * bool) :=
  onDemandQueryDocs (pricing.PriceList pricingOutput) st.

Definition GetOndemandInstanceTypeCost (p : EC2Pricing) (instanceType : string)
    : outcome ((float * option error) * EC2Pricing) :=
  match onDemandCache p !! instanceType with
  | Some price => Returned ((price, None), p)
  | None =>
      regionDescription ← getRegionForPricingAPI p;
      let fetched :=
        PricingClient p (productInput regionDescription (Some instanceType)) in
      '((pricePerUnitInUSD, processingErr), errAPI) ←
        runPages (pages fetched) (failure fetched) onDemandQueryPage
                 (minusOne, None);
      match errAPI, processingErr with
      | Some e, _ => Returned ((minusOne, Some e), p)
      | None, Some e => Returned ((minusOne, Some e), p)
      | None, None => Returned ((pricePerUnitInUSD, None), p)
      end
  end.

(** *** HydrateSpotCache *)

Definition spotHydratePage (dspho : ec2.DescribeSpotPriceHistoryOutput)
    (st : gmap string (gmap string (list spotPricingEntry)) * option error)
    : outcome ((gmap string (gmap string (list spotPricingEntry)) * option error)
               * bool) :=
  st' ← forEach (ec2.SpotPriceHistory dspho)
    (λ history '(newCache, processingErr),
       str ← deref (ec2.SpotPrice history);
       match ParseFloat str with
       | None =>
           Returned (newCache,
                     multierr.Append processingErr (Some (NumError str)))
       | Some spotPrice =>
           instanceType ← deref (ec2.InstanceType history);
           zone ← deref (ec2.AvailabilityZone history);
           let newCache :=
             match newCache !! instanceType with
             | Some _ => newCache
             | None => <[instanceType := ∅]> newCache
             end in
           ts ← deref (ec2.Timestamp history);
           Returned (<[instanceType :=
                        appendAt zone {| Timestamp := ts; SpotPrice := spotPrice |}
                                 (newCache !!! instanceType)]> newCache,
                     processingErr)
       end) st;
  Returned (st', true).

(** [now] and [cTime] are what [time.Now()] reads at lines 217 and 247. *)
Definition HydrateSpotCache (p : EC2Pricing) (now cTime : time.Time) (days : Z)
    : outcome (option error * EC2Pricing) :=
  let endTime := now in
  let fetched := EC2Client p (spotPriceHistInput endTime days []) in
  '((newCache, processingErr), errAPI) ←
    runPages (pages fetched) (failure fetched) spotHydratePage (∅, None);
  match errAPI with
  | Some e => Returned (Some e, p)
  | None =>
      let p := setSpotCache newCache p in
      let p := setLastSpotCacheUTC (Some cTime) p in
      Returned (processingErr, p)
  end.

(** *** HydrateOndemandCache *)

Definition onDemandHydratePage (pricingOutput : pricing.GetProductsOutput)
    (st : gmap string float * option error)
    : outcome ((gmap string float * option error) * bool) :=
  st' ← forEach (pricing.PriceList pricingOutput)
    (λ priceDoc '(newOnDemandCache, processingErr),
       '(instanceTypeName, price, errParse) ← parseOndemandUnitPrice priceDoc;
       match errParse with
       | Some e =>
           Returned (newOnDemandCache, multierr.Append processingErr (Some e))
       | None =>
           Returned (<[instanceTypeName := price]> newOnDemandCache, processingErr)
       end) st;
  Returned (st', true).

(** [cTime] is what [time.Now()] reads at line 286. *)
Definition HydrateOndemandCache (p : EC2Pricing) (cTime : time.Time)
    : outcome (option error * EC2Pricing) :=
  regionDescription ← getRegionForPricingAPI p;
  let fetched := PricingClient p (productInput regionDescription None) in
  '((newOnDemandCache, processingErr), errAPI) ←
    runPages (pages fetched) (failure fetched) onDemandHydratePage (∅, None);
  match errAPI with
  | Some e => Returned (Some e, p)
  | None =>
      let p := setOnDemandCache newOnDemandCache p in
      let p := setLastOnDemandCacheUTC (Some cTime) p in
      Returned (processingErr, p)
  end.

End Pricing.

(** ** Specification-side definitions

    What the specification says in words, to be compared with the code. *)

(** The weights of a series sorted newest first: minutes from each
    observation to the next more recent one, none for the newest. *)
Fixpoint weightsAfter (newer : time.Time) (sorted : list spotPricingEntry)
    : list float :=
  match sorted with
  | [] => []
  | e :: rest =>
      time.Minutes (time.Sub newer (Timestamp e)) :: weightsAfter (Timestamp e) rest
  end.

Definition specWeights (sorted : list spotPricingEntry) : list float :=
  match sorted with
  | [] => []
  | newest :: rest => float64.zero :: weightsAfter (Timestamp newest) rest
  end.

(** Σ weight × price, summed from zero in the order of the series. *)
Definition weightedPriceSum (weights : list float) (sorted : list spotPricingEntry)
    : float :=
  fold_left (λ acc '(w, e), (acc + w * SpotPrice e)%float)
            (zip weights sorted) float64.zero.

(** What the specification asks of a series [l]: with [s] the series
    sorted newest first, the newest observation weighs nothing, every
    other one the minutes up to the next more recent one, and the average
    is the weighted price sum over the span from oldest to newest. *)
Definition timeWeighted `{Runtime} (l : list spotPricingEntry) : Prop :=
  let s := sortSlice byTimestampDesc l in
  ∃ newest oldest rest,
    s = newest :: rest ∧ last s = Some oldest ∧ s ≡ₚ l ∧
    (∀ (i j : nat) a b, (i < j)%nat → s !! i = Some a → s !! j = Some b →
                        Timestamp b ≤ Timestamp a) ∧
    (∀ e, e ∈ l → Timestamp oldest ≤ Timestamp e ≤ Timestamp newest) ∧
    specWeights s !! 0%nat = Some float64.zero ∧
    (∀ (i : nat) a b, s !! i = Some a → s !! S i = Some b →
       specWeights s !! S i
       = Some (time.Minutes (time.Sub (Timestamp a) (Timestamp b)))) ∧
    calculateSpotAggregate l
    = (weightedPriceSum (specWeights s) s
       / time.Minutes (time.Sub (Timestamp newest) (Timestamp oldest)))%float.


(** The unweighted mean of a list of figures, summed from zero in order. *)
Definition arithmeticMean (xs : list float) : float :=
  (fold_left (λ acc x, (acc + x)%float) xs float64.zero
   / float64.of_Z (Z.of_nat (length xs)))%float.

(** The zone test of the loop at lines 132-136. *)
Definition zoneSelected (availabilityZones : list string) (zone : string) : bool :=
  (length availabilityZones =? 0)%nat
  || strings.Contains (strings.Join availabilityZones " ") zone.

(** The zones that pass the test, in the order the loop meets them. *)
Definition selectedZones `{Runtime} (availabilityZones : list string)
    (zoneToPriceEntries : gmap string (list spotPricingEntry))
    : list (string * list spotPricingEntry) :=
  List.filter (λ ze, zoneSelected availabilityZones ze.1)
              (rangeMap zoneToPriceEntries).

(** Zone matching as the specification has it: exact membership in the
    filter, and the empty filter matches every zone. *)
Definition zoneMatches (availabilityZones : list string) (zone : string) : bool :=
  match availabilityZones with
  | [] => true
  | _ => bool_decide (zone ∈ availabilityZones)
  end.

(** The zones of the data matching the filter, in the order the loop
    meets them. *)
Definition matchingZones `{Runtime} (availabilityZones : list string)
    (zoneToPriceEntries : gmap string (list spotPricingEntry))
    : list (string * list spotPricingEntry) :=
  List.filter (λ ze, zoneMatches availabilityZones ze.1)
              (rangeMap zoneToPriceEntries).

(** Errors collected one by one: none, the one, or a [MultiError]. *)
Definition combined (errs : list error) : option error :=
  fold_left (λ acc e, multierr.Append acc (Some e)) errs None.

(** What the parser made of the documents of a fetch: the pairs it
    recovered, and the errors it reported, both in order. *)
Definition parsedSubset (results : list (string * float * option error))
    : list (string * float) :=
  omap (λ '(name, price, err),
          match err with
          | None => Some (name, price)
          | Some _ => None
          end) results.

Definition parseErrors (results : list (string * float * option error))
    : list error :=
  omap (λ r, r.2) results.

(** What one record of the spot history amounts to. *)
Inductive spotEvent :=
| Priced (instanceType zone : string) (entry : spotPricingEntry)
| Unparsable (price : string).

(** [None] where the code dereferences a nil field of the record. *)
Definition readSpotEvent `{Runtime} (history : ec2.SpotPriceT) : option spotEvent :=
  str ← ec2.SpotPrice history;
  match ParseFloat str with
  | None => Some (Unparsable str)
  | Some spotPrice =>
      instanceType ← ec2.InstanceType history;
      zone ← ec2.AvailabilityZone history;
      ts ← ec2.Timestamp history;
      Some (Priced instanceType zone {| Timestamp := ts; SpotPrice := spotPrice |})
  end.

(** The observations of one instance type and zone, in order of arrival. *)
Definition seriesOf (instanceType zone : string) (events : list spotEvent)
    : list spotPricingEntry :=
  omap (λ ev,
          match ev with
          | Priced it z entry =>
              if decide (it = instanceType ∧ z = zone) then Some entry else None
          | Unparsable _ => None
          end) events.

Definition priceErrors (events : list spotEvent) : list error :=
  omap (λ ev,
          match ev with
          | Priced _ _ _ => None
          | Unparsable str => Some (NumError str)
          end) events.

(** One priced event filed under its instance type and zone. *)
Definition fileEvent (cache : gmap string (gmap string (list spotPricingEntry)))
    (ev : spotEvent) : gmap string (gmap string (list spotPricingEntry)) :=
  match ev with
  | Priced it z entry => <[it := appendAt z entry (cache !!! it)]> cache
  | Unparsable _ => cache
  end.

(** An error that stands for one failed record. *)
Definition single (e : error) : Prop :=
  match e with
  | MultiError _ => False
  | _ => True
  end.

(** ** A reference runtime

    One runtime that meets the contracts: insertion sort (what
    [sort.Slice] runs on short slices), maps visited in the order
    [map_to_list] lists them, and a reader of plain decimals. *)

Fixpoint insertSorted {A} (less : A → A → bool) (x : A) (l : list A) : list A :=
  match l with
  | [] => [x]
  | y :: l' => if less x y then x :: y :: l' else y :: insertSorted less x l'
  end.

Definition insertionSort {A} (less : A → A → bool) (l : list A) : list A :=
  fold_left (λ sorted x, insertSorted less x sorted) l [].

Definition dot : Ascii.ascii := Ascii.ascii_of_nat 46.

Definition digitOf (c : Ascii.ascii) : option Z :=
  let n := Z.of_nat (Ascii.nat_of_ascii c) in
  if (48 <=? n) && (n <=? 57) then Some (n - 48) else None.

(** Leading digits of [s], added to [acc]; [n] counts the digits read. *)
Fixpoint readDigits (s : string) (acc : Z) (n : nat) : Z * nat * string :=
  match s with
  | EmptyString => (acc, n, s)
  | String c s' =>
      match digitOf c with
      | Some d => readDigits s' (10 * acc + d) (S n)
      | None => (acc, n, s)
      end
  end.

(** [ddd] and [ddd.ddd] with at most 15 digits, where one correctly
    rounded division gives what [strconv.ParseFloat] gives; every other
    string is rejected. *)
Definition decimalFloat (s : string) : option float :=
  let '(whole, n1, rest) := readDigits s 0 0 in
  match rest with
  | EmptyString =>
      if (0 <? n1)%nat && (n1 <=? 15)%nat then Some (float64.of_Z whole)
      else None
  | String c frac =>
      if negb (Ascii.eqb c dot) then None else
      let '(mantissa, n2, rest') := readDigits frac whole n1 in
      match rest' with
      | EmptyString =>
          if (0 <? n1)%nat && (n1 <? n2)%nat && (n2 <=? 15)%nat
          then Some (float64.of_Z mantissa
                     / float64.of_Z (10 ^ Z.of_nat (n2 - n1)))%float
          else None
      | _ => None
      end
  end.

Definition refPartitions : list (gmap string string) :=
  [ {[ "us-east-1"%string := "US East (N. Virginia)"%string;
       "us-west-2"%string := "US West (Oregon)"%string;
       "eu-west-1"%string := "EU (Ireland)"%string ]};
    {[ "cn-north-1"%string := "China (Beijing)"%string ]} ].

(** ** Fixtures *)

(** A series of two observations an hour apart whose average is [price]. *)
Definition hourSeries (price : float) : list spotPricingEntry :=
  [ {| Timestamp := 1700000000000000000; SpotPrice := 10 |};
    {| Timestamp := 1700000000000000000 - 60 * time.Minute; SpotPrice := price |} ].

(** A facade with nothing behind the clients and the given caches. *)
Definition offline (onDemand : gmap string float)
    (spot : gmap string (gmap string (list spotPricingEntry))) : EC2Pricing :=
  {| PricingClient := λ _, {| pages := []; failure := None |};
     EC2Client := λ _, {| pages := []; failure := None |};
     AWSSession := Some "us-east-1"%string;
     onDemandCache := onDemand;
     spotCache := spot;
     lastOnDemandCacheUTC := None;
     lastSpotCacheUTC := None |}.

Definition obj (fields : list (string * jvalue)) : jvalue :=
  JObject (list_to_map fields).

(** A pricing document as the catalog sends it, cut down to the fields
    the parser reads. *)
Definition priceDoc (instanceType usd : string) : gmap string jvalue :=
  list_to_map
    [ ("product"%string,
       obj [ ("attributes"%string,
              obj [ ("instanceType"%string, JString instanceType) ]) ]);
      ("terms"%string,
       obj [ ("OnDemand"%string,
              obj [ ("SKU.JRTCKXETXF"%string,
                     obj [ ("priceDimensions"%string,
                            obj [ ("SKU.JRTCKXETXF.6YS6EN2CT7"%string,
                                   obj [ ("pricePerUnit"%string,
                                          obj [ ("USD"%string, JString usd) ])
                                       ]) ]) ]) ]) ]) ].

(** A document without its terms. *)
Definition termlessDoc (instanceType : string) : gmap string jvalue :=
  list_to_map
    [ ("product"%string,
       obj [ ("attributes"%string,
              obj [ ("instanceType"%string, JString instanceType) ]) ]) ].

Definition spotRecord (instanceType zone price : string) (ts : time.Time)
    : ec2.SpotPriceT :=
  {| ec2.AvailabilityZone := Some zone;
     ec2.InstanceType := Some instanceType;
     ec2.SpotPrice := Some price;
     ec2.Timestamp := Some ts |}.

(** A facade whose clients answer every request the same way. *)
Definition facade (catalog : paged pricing.GetProductsOutput)
    (history : paged ec2.DescribeSpotPriceHistoryOutput)
    (onDemand : gmap string float) (refreshed : option time.Time) : EC2Pricing :=
  {| PricingClient := λ _, catalog;
     EC2Client := λ _, history;
     AWSSession := Some "us-east-1"%string;
     onDemandCache := onDemand;
     spotCache := ∅;
     lastOnDemandCacheUTC := refreshed;
     lastSpotCacheUTC := refreshed |}.

Definition sendFailed : error := TransportError "RequestError: send request failed".


(** The fetches succeed; one price of each does not parse, and one
    document has no terms. *)
Definition patchy : EC2Pricing :=
  facade
    {| pages := [ {| pricing.PriceList := [ priceDoc "t3.micro" "0.0104";
                                            priceDoc "m5.large" "n/a" ] |};
                  {| pricing.PriceList := [ termlessDoc "c5.large";
                                            priceDoc "t3.micro" "0.0116" ] |} ];
       failure := None |}
    {| pages := [ {| ec2.SpotPriceHistory :=
                       [ spotRecord "t3.micro" "us-east-1a" "0.0031"
                                    1700000000000000000;
                         spotRecord "t3.micro" "us-east-1a" "?"
                                    1700000060000000000 ] |};
                  {| ec2.SpotPriceHistory :=
                       [ spotRecord "t3.micro" "us-east-1a" "0.0035"
                                    1700000120000000000 ] |} ];
       failure := None |}
    {[ "m5.large"%string := 0.096%float ]} (Some 1690000000000000000).

(** The catalog has the price of one instance type; nothing is cached. *)
Definition cold : EC2Pricing :=
  facade
    {| pages := [ {| pricing.PriceList := [ priceDoc "t3.micro" "0.0104" ] |} ];
       failure := None |}
    {| pages := []; failure := None |}
    ∅ None.

(** The catalog answers with one page that lists nothing. *)
Definition barren : EC2Pricing :=
  facade
    {| pages := [ {| pricing.PriceList := [] |} ]; failure := None |}
    {| pages := []; failure := None |}
    ∅ None.


(** The fetch succeeds; its one page has a priced document and a record
    without "product". *)
Definition choked : EC2Pricing :=
  facade
    {| pages := [ {| pricing.PriceList := [ priceDoc "t3.micro" "0.0104"; ∅ ] |} ];
       failure := None |}
    {| pages := []; failure := None |}
    {[ "m5.large"%string := 0.096%float ]} (Some 1690000000000000000).

(** ** Further notions: the facade over a run of calls, records and
    their shapes *)


(** The last price the fetch had for an instance type. *)
Definition lastPriceOf (instanceType : string)
    (results : list (string * float * option error)) : option float :=
  last (omap (λ '(name, price), if decide (name = instanceType) then Some price else None)
             (parsedSubset results)).

(** A page whose documents parse up to one that the parser answers with
    the error [e]. *)
Definition failsWith `{Runtime} (pg : pricing.GetProductsOutput) (e : error) : Prop :=
  ∃ parsed doc rest name price,
    pricing.PriceList pg = parsed ++ doc :: rest ∧
    Forall (λ d, ∃ n pr, parseOndemandUnitPrice d = Returned (n, pr, None)) parsed ∧
    parseOndemandUnitPrice doc = Returned (name, price, Some e).

(** A page all of whose documents parse. *)
Definition parsesWhole `{Runtime} (pg : pricing.GetProductsOutput) : Prop :=
  Forall (λ d, ∃ n pr, parseOndemandUnitPrice d = Returned (n, pr, None))
         (pricing.PriceList pg).

(** The record names the instance type: product.attributes.instanceType
    is that string. *)
Definition named (priceList : gmap string jvalue) (name : string) : Prop :=
  ∃ product attrs,
    priceList !! "product"%string = Some (JObject product) ∧
    product !! "attributes"%string = Some (JObject attrs) ∧
    attrs !! "instanceType"%string = Some (JString name).

(** The first page has a price that does not parse, the second one is
    fine. *)
Definition stumbling : EC2Pricing :=
  facade
    {| pages := [ {| pricing.PriceList := [ priceDoc "m5.large" "n/a" ] |};
                  {| pricing.PriceList := [ priceDoc "m5.large" "0.096" ] |} ];
       failure := None |}
    {| pages := []; failure := None |}
    ∅ None.

(** The only page has a document without terms, then the transport
    fails. *)
Definition failing : EC2Pricing :=
  facade
    {| pages := [ {| pricing.PriceList := [ termlessDoc "m5.large" ] |} ];
       failure := Some sendFailed |}
    {| pages := []; failure := None |}
    ∅ None.

(** What one record of the spot history amounts to in a query, which
    does not read the instance type of the record. *)
Inductive zoneEvent :=
| ZonePriced (zone : string) (entry : spotPricingEntry)
| ZoneUnparsable (price : string).

(** [None] where the query dereferences a nil field of the record. *)
Definition readZoneEvent `{Runtime} (history : ec2.SpotPriceT) : option zoneEvent :=
  str ← ec2.SpotPrice history;
  match ParseFloat str with
  | None => Some (ZoneUnparsable str)
  | Some spotPrice =>
      zone ← ec2.AvailabilityZone history;
      ts ← ec2.Timestamp history;
      Some (ZonePriced zone {| Timestamp := ts; SpotPrice := spotPrice |})
  end.

Definition zoneSeries (zone : string) (events : list zoneEvent)
    : list spotPricingEntry :=
  omap (λ ev,
          match ev with
          | ZonePriced z entry => if decide (z = zone) then Some entry else None
          | ZoneUnparsable _ => None
          end) events.

Definition zoneErrors (events : list zoneEvent) : list error :=
  omap (λ ev,
          match ev with
          | ZonePriced _ _ => None
          | ZoneUnparsable str => Some (NumError str)
          end) events.

Definition fileZone (zoneToPriceEntries : gmap string (list spotPricingEntry))
    (ev : zoneEvent) : gmap string (list spotPricingEntry) :=
  match ev with
  | ZonePriced z entry => appendAt z entry zoneToPriceEntries
  | ZoneUnparsable _ => zoneToPriceEntries
  end.

(** [New(sess)] for a session whose configured region is [region];
    [pricingClient] and [ec2Client] are what [pricing.New] and [ec2.New]
    build for it. Neither cache is made, neither timestamp is set. *)
Definition New (region : option string)
    (pricingClient : pricing.GetProductsInput → paged pricing.GetProductsOutput)
    (ec2Client : ec2.DescribeSpotPriceHistoryInput →
                 paged ec2.DescribeSpotPriceHistoryOutput) : EC2Pricing :=
  {| PricingClient := pricingClient;
     EC2Client := ec2Client;
     AWSSession := region;
     onDemandCache := ∅;
     spotCache := ∅;
     lastOnDemandCacheUTC := None;
     lastSpotCacheUTC := None |}.




(** Every value of the object passes [check]. *)
Definition allValues (check : jvalue → bool) (m : gmap string jvalue) : bool :=
  forallb (λ kv, check kv.2) (map_to_list m).

(** The field is absent, or an object that passes [check]. *)
Definition objectAt (key : string) (check : gmap string jvalue → bool)
    (m : gmap string jvalue) : bool :=
  match m !! key with
  | None => true
  | Some (JObject o) => check o
  | Some _ => false
  end.

Definition stringAt (key : string) (m : gmap string jvalue) : bool :=
  match m !! key with
  | None | Some (JString _) => true
  | Some _ => false
  end.

Definition isObject (check : gmap string jvalue → bool) (v : jvalue) : bool :=
  match v with
  | JObject o => check o
  | _ => false
  end.

(** The nesting the parser takes for granted: "product" is an object,
    and wherever they are present, "attributes", "terms", "OnDemand",
    every term, "priceDimensions", every dimension and "pricePerUnit" are
    objects, and "USD" is a string. *)
Definition shapedTerm : jvalue → bool :=
  isObject (objectAt "priceDimensions"
    (allValues (isObject (objectAt "pricePerUnit" (stringAt "USD"))))).

Definition shaped (priceList : gmap string jvalue) : bool :=
  match priceList !! "product"%string with
  | Some (JObject product) =>
      objectAt "attributes" (λ _, true) product
      && objectAt "terms" (objectAt "OnDemand" (allValues shapedTerm)) priceList
  | _ => false
  end.

(** The term quotes the string as its price per unit in USD, in one of
    its price dimensions. *)
Definition quotedBy (term : jvalue) (usd : string) : Prop :=
  ∃ fields dimMap rate dims perUnit,
    term = JObject fields ∧
    fields !! "priceDimensions"%string = Some (JObject dimMap) ∧
    dimMap !! rate = Some (JObject dims) ∧
    dims !! "pricePerUnit"%string = Some (JObject perUnit) ∧
    perUnit !! "USD"%string = Some (JString usd).

(** The record quotes the string in one of its on-demand terms. *)
Definition quoted (priceList : gmap string jvalue) (usd : string) : Prop :=
  ∃ terms onDemand sku term,
    priceList !! "terms"%string = Some (JObject terms) ∧
    terms !! "OnDemand"%string = Some (JObject onDemand) ∧
    onDemand !! sku = Some term ∧
    quotedBy term usd.

(** * Properties *)

(** ** The reference runtime meets the contracts *)

Lemma insertSorted_perm {A} (less : A → A → bool) x l :
  insertSorted less x l ≡ₚ x :: l.
Proof.
  induction l as [|y l IH]; simpl; [done|].
  destruct (less x y); [done|].
  rewrite IH. apply perm_swap.
Qed.

Lemma insertionSort_perm {A} (less : A → A → bool) l :
  insertionSort less l ≡ₚ l.
Proof.
  unfold insertionSort.
  cut (∀ acc, fold_left (λ sorted x, insertSorted less x sorted) l acc ≡ₚ acc ++ l).
  { intros Hc. apply (Hc []). }
  induction l as [|x l IH]; intros acc; simpl.
  - by rewrite app_nil_r.
  - rewrite IH, insertSorted_perm. by rewrite <- Permutation_middle.
Qed.

Lemma insertSorted_sorted {A} (less : A → A → bool) x l :
  StrictWeak less →
  StronglySorted (λ a b, less b a = false) l →
  StronglySorted (λ a b, less b a = false) (insertSorted less x l).
Proof.
  intros [Hasym Htrans]. induction 1 as [|y l Hl IH Hy]; simpl.
  - repeat constructor.
  - destruct (less x y) eqn:Hxy.
    + constructor; [by constructor|].
      constructor; [by apply Hasym|].
      eapply Forall_impl; [exact Hy|]. simpl. intros z Hz.
      apply (Htrans z y x); [done|by apply Hasym].
    + constructor; [done|].
      rewrite insertSorted_perm. by constructor.
Qed.

Lemma insertionSort_strongly {A} (less : A → A → bool) l :
  StrictWeak less →
  StronglySorted (λ a b, less b a = false) (insertionSort less l).
Proof.
  intros Hless. unfold insertionSort.
  cut (∀ acc, StronglySorted (λ a b, less b a = false) acc →
         StronglySorted (λ a b, less b a = false)
           (fold_left (λ sorted x, insertSorted less x sorted) l acc)).
  { intros Hc. apply Hc. constructor. }
  induction l as [|x l IH]; intros acc Hacc; simpl; [done|].
  apply IH. by apply insertSorted_sorted.
Qed.

Lemma StronglySorted_lookup_lt {A} (R : A → A → Prop) l (i j : nat) x y :
  StronglySorted R l → (i < j)%nat → l !! i = Some x → l !! j = Some y → R x y.
Proof.
  intros Hl. revert i j. induction Hl as [|a l Hl IH Ha]; intros i j Hij Hi Hj.
  - by rewrite lookup_nil in Hi.
  - destruct j as [|j]; [lia|]. simpl in Hj.
    destruct i as [|i]; simpl in Hi.
    + simplify_eq. rewrite Forall_forall in Ha. apply Ha.
      by eapply list_elem_of_lookup_2.
    + apply (IH i j); [lia|done..].
Qed.

Definition refRuntime : Runtime :=
  {| sortSlice := @insertionSort;
     sortSlice_perm := @insertionSort_perm;
     sortSlice_sorted := λ A less l Hless i j x y Hij Hi Hj,
       StronglySorted_lookup_lt _ _ i j x y (insertionSort_strongly less l Hless) Hij Hi Hj;
     rangeMap := λ A m, map_to_list m;
     rangeMap_perm := λ A m, reflexivity _;
     ParseFloat := decimalFloat;
     Partitions := refPartitions |}.

(** ** float64 and time *)

Lemma Minutes_zero : time.Minutes 0 = float64.zero.
Proof. reflexivity. Qed.

Lemma Sub_diag (t : time.Time) : time.Sub t t = 0.
Proof. unfold time.Sub. by rewrite Z.sub_diag. Qed.

Lemma Sub_small (t u : time.Time) :
  time.minDuration ≤ t - u ≤ time.maxDuration → time.Sub t u = t - u.
Proof.
  intros [Hlo Hhi]. unfold time.Sub. simpl.
  destruct (Z.ltb_spec (t - u) time.minDuration); [lia|].
  destruct (Z.ltb_spec time.maxDuration (t - u)); [lia|done].
Qed.

(** A zero weight over a zero span: the quotient is NaN whatever the
    price is. *)
Lemma zero_weight_zero_span (price : float) :
  ((float64.zero + float64.zero * price) / float64.zero)%float = nan.
Proof.
  apply Prim2SF_inj.
  rewrite FloatAxioms.div_spec, FloatAxioms.add_spec, FloatAxioms.mul_spec.
  destruct (Prim2SF price) as [s|s| |s m e]; try destruct s; reflexivity.
Qed.

Lemma nan_neq (x : float) : PrimFloat.is_nan x = false → nan ≠ x.
Proof. intros Hx Heq. rewrite <- Heq in Hx. discriminate Hx. Qed.

Lemma byTimestampDesc_strict : StrictWeak byTimestampDesc.
Proof.
  unfold byTimestampDesc, time.After. split.
  - intros x y Hxy. apply Z.ltb_lt in Hxy. apply Z.ltb_ge. lia.
  - intros x y z Hxy Hyz. apply Z.ltb_ge in Hxy, Hyz. apply Z.ltb_ge. lia.
Qed.

Lemma prevIndex_S (i : nat) : prevIndex (S i) = i.
Proof. unfold prevIndex. lia. Qed.

Section AveragerFacts.
Context `{Runtime}.

(** The loop of lines 158-161 from index [length pre + 1] on, where
    [x] is the entry just before. *)
Lemma priceSum_from (s pre l : list spotPricingEntry) (x : spotPricingEntry)
    (acc : float) :
  s = pre ++ x :: l →
  fold_left
    (λ priceSum '(i, entry),
       let duration :=
         time.Minutes (time.Sub (Timestamp (s !!! prevIndex i)) (Timestamp entry)) in
       (priceSum + duration * SpotPrice entry)%float)
    (imap (λ i e, (S (length pre + i), e)) l) acc
  = fold_left (λ acc '(w, e), (acc + w * SpotPrice e)%float)
              (zip (weightsAfter (Timestamp x) l) l) acc.
Proof.
  revert pre x acc. induction l as [|e l IH]; intros pre x acc Hs; [done|].
  rewrite imap_cons. simpl.
  rewrite Nat.add_0_r, prevIndex_S.
  replace (s !!! length pre) with x
    by (subst s; by rewrite list_lookup_total_middle).
  rewrite <- (IH (pre ++ [x]) e); [|by rewrite <- app_assoc].
  f_equal. apply imap_ext. intros i y _. simpl.
  rewrite length_app. simpl. f_equal. lia.
Qed.

(** A non-empty series: the code computes the weighted sum of the
    specification over the span between the two ends of the sorted
    series. *)
Lemma calculateSpotAggregate_sorted (l : list spotPricingEntry) :
  l ≠ [] →
  let s := sortSlice byTimestampDesc l in
  calculateSpotAggregate l
  = (weightedPriceSum (specWeights s) s
     / time.Minutes (time.Sub (Timestamp (s !!! 0%nat))
                              (Timestamp (s !!! (length s - 1)%nat))))%float.
Proof.
  intros Hl s. unfold calculateSpotAggregate.
  destruct l as [|e0 l]; [done|]. simpl length. simpl Nat.eqb. cbv iota.
  fold s. f_equal.
  assert (Hs : s ≠ []).
  { intros Hnil. pose proof (sortSlice_perm _ byTimestampDesc (e0 :: l)) as Hp.
    fold s in Hp. rewrite Hnil in Hp. by apply Permutation_nil_cons in Hp. }
  destruct s as [|x s'] eqn:Es; [done|].
  unfold weightedPriceSum. rewrite imap_cons. simpl.
  rewrite Sub_diag, Minutes_zero.
  apply (priceSum_from (x :: s') [] s' x). done.
Qed.

Lemma weightsAfter_lookup (l : list spotPricingEntry) (newer : time.Time)
    (i : nat) (ta : time.Time) (b : spotPricingEntry) :
  (newer :: (Timestamp <$> l)) !! i = Some ta → l !! i = Some b →
  weightsAfter newer l !! i = Some (time.Minutes (time.Sub ta (Timestamp b))).
Proof.
  revert newer i. induction l as [|e l IH]; intros newer i Ha Hb; [done|].
  destruct i as [|i]; simpl in *.
  - by simplify_eq.
  - by apply IH.
Qed.

Lemma sorted_descending (l : list spotPricingEntry) (i j : nat) a b :
  (i < j)%nat →
  sortSlice byTimestampDesc l !! i = Some a →
  sortSlice byTimestampDesc l !! j = Some b →
  Timestamp b ≤ Timestamp a.
Proof.
  intros Hij Hi Hj.
  pose proof (sortSlice_sorted _ byTimestampDesc l byTimestampDesc_strict
                i j a b Hij Hi Hj) as Hle.
  unfold byTimestampDesc, time.After in Hle. by apply Z.ltb_ge in Hle.
Qed.

(** The two observations of the specification's example, in either
    order of arrival. *)
Lemma two_point_average (now : time.Time) (p1 p2 : float)
    (l : list spotPricingEntry) :
  l ≡ₚ [ {| Timestamp := now; SpotPrice := p1 |};
         {| Timestamp := now - 60 * time.Minute; SpotPrice := p2 |} ] →
  calculateSpotAggregate l
  = ((float64.zero + float64.zero * p1 + 60 * p2) / 60)%float.
Proof.
  intros Hl.
  assert (Hne : l ≠ []).
  { intros ->. by apply Permutation_nil_cons in Hl. }
  rewrite (calculateSpotAggregate_sorted l Hne). cbv zeta.
  pose proof (sortSlice_perm _ byTimestampDesc l) as Hp.
  apply (λ Hp, transitivity Hp Hl) in Hp. symmetry in Hp.
  apply Permutation_length_2_inv in Hp as [Hs|Hs].
  - rewrite Hs. unfold weightedPriceSum. simpl.
    rewrite Sub_small
      by (unfold time.minDuration, time.maxDuration, time.Minute, time.Second; lia).
    replace (now - (now - 60 * time.Minute)) with (60 * time.Minute) by lia.
    reflexivity.
  - exfalso.
    pose proof (sorted_descending l 0 1 _ _ ltac:(lia)
                  (f_equal (.!! 0%nat) Hs) (f_equal (.!! 1%nat) Hs)) as Hle.
    simpl in Hle. unfold time.Minute, time.Second in Hle. lia.
Qed.

End AveragerFacts.

(** C2 (the code departs from the claim). A zone with exactly one
    observation does not average to that observation's price: the span
    and the only weight are both zero, and the quotient is NaN for every
    timestamp and every price; so for the observation {t0, $5}. *)
Theorem single_observation_is_nan `{Runtime} :
  (∀ e : spotPricingEntry, calculateSpotAggregate [e] = nan) ∧
  (∀ t0 : time.Time,
     calculateSpotAggregate [ {| Timestamp := t0; SpotPrice := 5 |} ] ≠ 5%float).
Proof.
  assert (Hnan : ∀ e : spotPricingEntry, calculateSpotAggregate [e] = nan).
  { intros e.
    rewrite (calculateSpotAggregate_sorted [e]) by done. cbv zeta.
    pose proof (sortSlice_perm _ byTimestampDesc [e]) as Hp.
    apply Permutation_singleton_r in Hp. rewrite Hp.
    unfold weightedPriceSum. simpl. rewrite Sub_diag, Minutes_zero.
    apply zero_weight_zero_span. }
  split; [exact Hnan|].
  intros t0. rewrite Hnan. by apply nan_neq.
Qed.

(** C4. For a zone with at least two observations, sorted newest first:
    the newest observation weighs 0 minutes, every other one the minutes
    up to the next more recent one, and the average is the weighted
    price sum over the span from the oldest to the newest observation.
    The observations {now, $10} and {now - 60 min, $6} average to $6. *)
Theorem time_weighted_average `{Runtime} :
  (∀ l : list spotPricingEntry, (2 ≤ length l)%nat → timeWeighted l)
  ∧
  (∀ (now : time.Time) (l : list spotPricingEntry),
     l ≡ₚ [ {| Timestamp := now; SpotPrice := 10 |};
            {| Timestamp := now - 60 * time.Minute; SpotPrice := 6 |} ] →
     calculateSpotAggregate l = 6%float).
Proof.
  split.
  - intros l Hlen. unfold timeWeighted. cbv zeta.
    set (s := sortSlice byTimestampDesc l).
    pose proof (sortSlice_perm _ byTimestampDesc l) as Hp. fold s in Hp.
    assert (Hslen : length s = length l) by by rewrite Hp.
    assert (Hne : l ≠ []) by (intros ->; simpl in Hlen; lia).
    pose proof (calculateSpotAggregate_sorted l Hne) as Hcode.
    cbv zeta in Hcode. fold s in Hcode.
    assert (Hsorted : ∀ (i j : nat) a b, (i < j)%nat →
              s !! i = Some a → s !! j = Some b → Timestamp b ≤ Timestamp a)
      by (intros i j a b; apply sorted_descending).
    destruct s as [|newest rest] eqn:Es; [simpl in Hslen; lia|].
    destruct (last (newest :: rest)) as [oldest|] eqn:Hlast;
      [|by apply last_None in Hlast].
    exists newest, oldest, rest.
    assert (Hidx : (newest :: rest) !! (length (newest :: rest) - 1)%nat = Some oldest).
    { rewrite <- Hlast, last_lookup. f_equal. simpl. lia. }
    split_and!; try done.
    + intros e He. rewrite <- Hp in He.
      apply list_elem_of_lookup in He as [k Hk].
      pose proof (lookup_lt_Some _ _ _ Hk) as Hklt.
      split.
      * destruct (decide (k = (length (newest :: rest) - 1)%nat)) as [->|Hk'].
        -- rewrite Hidx in Hk. by simplify_eq.
        -- apply (Hsorted k (length (newest :: rest) - 1)%nat); [lia|done..].
      * destruct k as [|k]; [simpl in Hk; by simplify_eq|].
        apply (Hsorted 0%nat (S k)); [lia|done..].
    + intros i a b Ha Hb. simpl in Hb |- *.
      apply weightsAfter_lookup; [|done].
      destruct i as [|i]; simpl in *; [by simplify_eq|].
      by rewrite list_lookup_fmap, Ha.
    + rewrite Hcode. do 2 f_equal.
      by rewrite (list_lookup_total_correct _ _ _ Hidx).
  - intros now l Hl. by rewrite (two_point_average now 10 6 l Hl).
Qed.

Lemma time_weighted_average_witness :
  let l := [ {| Timestamp := 1700000000000000000 - 60 * time.Minute; SpotPrice := 6 |};
             {| Timestamp := 1700000000000000000; SpotPrice := 10 |} ] in
  (2 ≤ length l)%nat ∧ timeWeighted (H := refRuntime) l ∧
  calculateSpotAggregate (H := refRuntime) l = 6%float.
Proof.
  intros l. split; [simpl; lia|]. split.
  - apply (proj1 (time_weighted_average (H := refRuntime)) l). simpl. lia.
  - apply (proj2 (time_weighted_average (H := refRuntime)) 1700000000000000000).
    apply perm_swap.
Defined.

(** ** Zone selection *)

Lemma prefix_app (z r : string) : String.prefix z (z +:+ r) = true.
Proof.
  induction z as [|c z IH]; simpl; [by destruct r|].
  destruct (Ascii.ascii_dec c c); [done|congruence].
Qed.

Lemma prefix_refl (z : string) : String.prefix z z = true.
Proof.
  induction z as [|c z IH]; simpl; [done|].
  destruct (Ascii.ascii_dec c c); [done|congruence].
Qed.

Lemma Contains_prefix (s z : string) :
  String.prefix z s = true → strings.Contains s z = true.
Proof. intros Hp. destruct s; cbn [strings.Contains]; by rewrite Hp. Qed.

Lemma Contains_app_r (a b z : string) :
  strings.Contains b z = true → strings.Contains (a +:+ b) z = true.
Proof.
  intros Hb. induction a as [|c a IH]; [done|].
  change (String c a +:+ b) with (String c (a +:+ b)).
  cbn [strings.Contains]. rewrite IH. apply orb_true_r.
Qed.

(** Every zone named in the filter passes the test of line 133. *)
Lemma Contains_Join_member (zones : list string) (z : string) :
  z ∈ zones → strings.Contains (strings.Join zones " ") z = true.
Proof.
  unfold strings.Join. induction zones as [|x xs IH]; intros Hz.
  - by apply elem_of_nil in Hz.
  - apply elem_of_cons in Hz as [->|Hz].
    + apply Contains_prefix. simpl. destruct xs.
      * apply prefix_refl.
      * apply prefix_app.
    + simpl. destruct xs as [|y ys]; [by apply elem_of_nil in Hz|].
      apply Contains_app_r, Contains_app_r. by apply IH.
Qed.

Lemma filter_none {A} (f : A → bool) (l : list A) :
  (∀ x, x ∈ l → f x = false) → List.filter f l = [].
Proof.
  induction l as [|x l IH]; intros Hf; simpl; [done|].
  rewrite (Hf x) by (apply elem_of_cons; by left).
  apply IH. intros y Hy. apply Hf. apply elem_of_cons. by right.
Qed.

Lemma zoneSelected_member (zones : list string) (z : string) :
  z ∈ zones → zoneSelected zones z = true.
Proof.
  intros Hz. unfold zoneSelected. rewrite (Contains_Join_member _ _ Hz).
  apply orb_true_r.
Qed.

Section ZoneFacts.
Context `{Runtime}.

Lemma zone_loop (availabilityZones : list string)
    (l : list (string * list spotPricingEntry)) (sum : float) (n : Z) :
  fold_left
    (λ '(aggregateZonePriceSum, numOfZones) '(zone, priceEntries),
       if negb (length availabilityZones =? 0)%nat
          && negb (strings.Contains (strings.Join availabilityZones " ") zone)
       then (aggregateZonePriceSum, numOfZones)
       else ((aggregateZonePriceSum + calculateSpotAggregate priceEntries)%float,
             numOfZones + 1))
    l (sum, n)
  = (fold_left (λ acc x, (acc + x)%float)
       ((λ ze, calculateSpotAggregate ze.2)
          <$> List.filter (λ ze, zoneSelected availabilityZones ze.1) l) sum,
     n + Z.of_nat (length (List.filter (λ ze, zoneSelected availabilityZones ze.1) l))).
Proof.
  revert sum n. induction l as [|[zone priceEntries] l IH]; intros sum n.
  - simpl. by rewrite Z.add_0_r.
  - cbn [fold_left List.filter fst snd].
    assert (Hc : negb (length availabilityZones =? 0)%nat
                 && negb (strings.Contains (strings.Join availabilityZones " ") zone)
                 = negb (zoneSelected availabilityZones zone))
      by (unfold zoneSelected; by rewrite negb_orb).
    rewrite Hc.
    destruct (zoneSelected availabilityZones zone); cbn [negb]; rewrite IH.
    + cbn [fmap list_fmap length fold_left snd]. f_equal. lia.
    + done.
Qed.

Lemma averageOverZones_mean
    (zoneToPriceEntries : gmap string (list spotPricingEntry))
    (availabilityZones : list string) :
  averageOverZones zoneToPriceEntries availabilityZones
  = arithmeticMean ((λ ze, calculateSpotAggregate ze.2)
                      <$> selectedZones availabilityZones zoneToPriceEntries).
Proof.
  unfold averageOverZones, arithmeticMean, selectedZones.
  rewrite zone_loop. by rewrite length_fmap.
Qed.

Lemma selectedZones_nil (zoneToPriceEntries : gmap string (list spotPricingEntry)) :
  selectedZones [] zoneToPriceEntries = rangeMap zoneToPriceEntries.
Proof.
  unfold selectedZones. induction (rangeMap zoneToPriceEntries) as [|ze l IH];
    simpl; [done|]. by rewrite IH.
Qed.

(** Lines 120-125 for one zone: its entries appended one by one. *)
Lemma append_entries (zone : string) (es : list spotPricingEntry)
    (m : gmap string (list spotPricingEntry)) :
  fold_left
    (λ zoneToPriceEntries entry,
       appendAt zone {| Timestamp := Timestamp entry; SpotPrice := SpotPrice entry |}
                zoneToPriceEntries) es m
  = match es with
    | [] => m
    | _ => <[zone := (m !!! zone) ++ es]> m
    end.
Proof.
  revert m. induction es as [|e es IH]; intros m; [done|].
  cbn [fold_left]. rewrite IH. unfold appendAt. destruct e as [t pr]. simpl.
  destruct es as [|e' es]; [done|].
  rewrite lookup_total_insert_eq, insert_insert_eq.
  by rewrite <- app_assoc.
Qed.

Lemma copy_fold_lookup (l : list (string * list spotPricingEntry))
    (m : gmap string (list spotPricingEntry)) (z : string) :
  NoDup l.*1 →
  fold_left
    (λ zoneToPriceEntries '(zone, priceEntries),
       fold_left
         (λ zoneToPriceEntries entry,
            appendAt zone {| Timestamp := Timestamp entry;
                             SpotPrice := SpotPrice entry |}
                     zoneToPriceEntries)
         priceEntries zoneToPriceEntries) l m !! z
  = match (list_to_map l : gmap string (list spotPricingEntry)) !! z with
    | Some (e :: es) => Some ((m !!! z) ++ e :: es)
    | _ => m !! z
    end.
Proof.
  revert m. induction l as [|[k es] l IH]; intros m Hnd; [done|].
  apply NoDup_cons in Hnd as [Hk Hnd].
  cbn [fold_left]. rewrite (IH _ Hnd), append_entries.
  cbn [list_to_map foldr uncurry fst snd].
  destruct (decide (k = z)) as [->|Hkz].
  - rewrite lookup_insert_eq.
    rewrite (not_elem_of_list_to_map_1 _ _ Hk).
    destruct es as [|e es]; [done|]. by rewrite lookup_insert_eq.
  - rewrite lookup_insert_ne by done.
    destruct es as [|e es]; [done|].
    by rewrite lookup_insert_ne, lookup_total_insert_ne by done.
Qed.

(** The working set built from a cached instance type: its zones with
    at least one observation, each with its series as cached. *)
Lemma copyCachedZones_lookup (cached : gmap string (list spotPricingEntry))
    (z : string) :
  copyCachedZones cached !! z
  = match cached !! z with
    | Some (e :: es) => Some (e :: es)
    | _ => None
    end.
Proof.
  unfold copyCachedZones.
  pose proof (rangeMap_perm _ cached) as Hp.
  rewrite copy_fold_lookup.
  - rewrite <- (list_to_map_flip cached (rangeMap cached)) by done.
    rewrite lookup_empty, lookup_total_empty. done.
  - rewrite Hp. apply NoDup_fst_map_to_list.
Qed.

Lemma copyCachedZones_nonempty (cached : gmap string (list spotPricingEntry)) :
  (∀ z es, cached !! z = Some es → es ≠ []) → copyCachedZones cached = cached.
Proof.
  intros Hne. apply map_eq. intros z. rewrite copyCachedZones_lookup.
  destruct (cached !! z) as [[|e es]|] eqn:Hz; try done.
  by destruct (Hne z [] Hz).
Qed.

(** Two zones, both selected: the mean of their averages, summed in
    the order the runtime visits the map. *)
Lemma averageOverZones_two (z1 z2 : string) (es1 es2 : list spotPricingEntry)
    (zones : list string) :
  z1 ≠ z2 → zoneSelected zones z1 = true → zoneSelected zones z2 = true →
  let a := calculateSpotAggregate es1 in
  let b := calculateSpotAggregate es2 in
  averageOverZones {[ z1 := es1; z2 := es2 ]} zones
    = ((float64.zero + a + b) / float64.of_Z 2)%float ∨
  averageOverZones {[ z1 := es1; z2 := es2 ]} zones
    = ((float64.zero + b + a) / float64.of_Z 2)%float.
Proof.
  intros Hne Hz1 Hz2 a b. rewrite averageOverZones_mean. unfold selectedZones.
  pose proof (rangeMap_perm _ ({[ z1 := es1; z2 := es2 ]}
                               : gmap string (list spotPricingEntry))) as Hp.
  rewrite map_to_list_insert in Hp by by rewrite lookup_singleton_ne.
  rewrite map_to_list_singleton in Hp. symmetry in Hp.
  apply Permutation_length_2_inv in Hp as [Hs|Hs]; rewrite Hs; simpl;
    rewrite Hz1, Hz2; [left|right]; reflexivity.
Qed.

End ZoneFacts.

(** C1 (the code departs from the claim). Every zone named in the filter
    contributes, and the filter ["us-east-1a"] leaves the zone
    "us-east-1ab" out; but the test is containment in the joined filter,
    not membership: with the filter ["us-east-1ab"] the zone "us-east-1a"
    passes although it is not in the filter, and the query over the zones
    "us-east-1a" (average $4) and "us-east-1ab" (average $8) returns $6,
    the mean of both, where the one zone of the filter averages $8. *)
Theorem zone_filter_is_containment `{Runtime} :
  (∀ zones z, z ∈ zones → zoneSelected zones z = true) ∧
  zoneSelected ["us-east-1a"%string] "us-east-1ab" = false ∧
  ("us-east-1a"%string ∉ ["us-east-1ab"%string]) ∧
  zoneSelected ["us-east-1ab"%string] "us-east-1a" = true ∧
  (∀ (p : EC2Pricing) (now : time.Time) (days : Z),
     spotCache p !! "m5.large"%string
       = Some {[ "us-east-1a"%string := hourSeries 4;
                 "us-east-1ab"%string := hourSeries 8 ]} →
     GetSpotInstanceTypeNDayAvgCost p now "m5.large" ["us-east-1ab"%string] days
       = Returned ((6%float, None), p) ∧
     calculateSpotAggregate (hourSeries 8) = 8%float).
Proof.
  split_and!.
  - apply zoneSelected_member.
  - reflexivity.
  - intros Hin%list_elem_of_singleton. discriminate.
  - reflexivity.
  - intros p now days Hp.
    assert (H4 : calculateSpotAggregate (hourSeries 4) = 4%float)
      by by rewrite (two_point_average 1700000000000000000 10 4).
    assert (H8 : calculateSpotAggregate (hourSeries 8) = 8%float)
      by by rewrite (two_point_average 1700000000000000000 10 8).
    split; [|done].
    unfold GetSpotInstanceTypeNDayAvgCost. rewrite Hp.
    rewrite copyCachedZones_nonempty.
    + destruct (averageOverZones_two "us-east-1a" "us-east-1ab"
                  (hourSeries 4) (hourSeries 8) ["us-east-1ab"%string])
        as [Hr|Hr]; try done; rewrite Hr, H4, H8; reflexivity.
    + intros z es Hz.
      apply lookup_insert_Some in Hz as [[_ <-]|[_ Hz]]; [done|].
      apply lookup_singleton_Some in Hz as [_ <-]. done.
Qed.

Lemma zone_filter_is_containment_witness :
  let p := offline ∅ {[ "m5.large"%string :=
                          {[ "us-east-1a"%string := hourSeries 4;
                             "us-east-1ab"%string := hourSeries 8 ]} ]} in
  GetSpotInstanceTypeNDayAvgCost (H := refRuntime) p 1700000000000000000
    "m5.large" ["us-east-1ab"%string] 30
  = Returned ((6%float, None), p).
Proof.
  intros p.
  apply (proj2 (proj2 (proj2 (proj2
           (zone_filter_is_containment (H := refRuntime))))) p).
  reflexivity.
Defined.

(** No zone passes the test: the sum 0 over the count 0. *)
Lemma averageOverZones_none `{Runtime}
    (zoneToPriceEntries : gmap string (list spotPricingEntry))
    (availabilityZones : list string) :
  (∀ z es, zoneToPriceEntries !! z = Some es →
           zoneSelected availabilityZones z = false) →
  averageOverZones zoneToPriceEntries availabilityZones = nan.
Proof.
  intros Hnone. rewrite averageOverZones_mean. unfold selectedZones.
  rewrite filter_none; [done|].
  intros [z es] Hin. simpl. rewrite rangeMap_perm in Hin.
  apply elem_of_map_to_list in Hin. by apply (Hnone z es).
Qed.

(** C3 (the code departs from the claim). When the filter selects none
    of the zones of the data, cached or fetched, the query returns no
    error: the sum 0 is divided by the count 0 and the NaN comes back
    with a nil error. *)
Theorem no_zone_selected_is_nan `{Runtime} (p : EC2Pricing) (now : time.Time)
    (instanceType : string) (availabilityZones : list string) (days : Z) :
  (∀ cached : gmap string (list spotPricingEntry),
     spotCache p !! instanceType = Some cached →
     (∀ z es, cached !! z = Some es → zoneSelected availabilityZones z = false) →
     GetSpotInstanceTypeNDayAvgCost p now instanceType availabilityZones days
     = Returned ((nan, None), p)) ∧
  (∀ zoneToPriceEntries : gmap string (list spotPricingEntry),
     spotCache p !! instanceType = None →
     (let fetched := EC2Client p (spotPriceHistInput now days [instanceType]) in
      runPages (pages fetched) (failure fetched) spotQueryPage (∅, None)
      = Returned ((zoneToPriceEntries, None), None)) →
     (∀ z es, zoneToPriceEntries !! z = Some es →
              zoneSelected availabilityZones z = false) →
     GetSpotInstanceTypeNDayAvgCost p now instanceType availabilityZones days
     = Returned ((nan, None), p)).
Proof.
  split.
  - intros cached Hp Hnone. unfold GetSpotInstanceTypeNDayAvgCost. rewrite Hp.
    rewrite averageOverZones_none; [done|].
    intros z es Hz. rewrite copyCachedZones_lookup in Hz.
    destruct (cached !! z) as [[|e es']|] eqn:Hc; try done.
    by apply (Hnone z (e :: es')).
  - intros working Hp Hfetch Hnone. unfold GetSpotInstanceTypeNDayAvgCost.
    rewrite Hp. cbv zeta in Hfetch |- *. rewrite Hfetch. simpl.
    by rewrite averageOverZones_none.
Qed.

Lemma no_zone_selected_is_nan_witness :
  let p := offline ∅ {[ "m5.large"%string :=
                          {[ "us-east-1a"%string := hourSeries 4 ]} ]} in
  GetSpotInstanceTypeNDayAvgCost (H := refRuntime) p 1700000000000000000
    "m5.large" ["us-west-2a"%string] 30
  = Returned ((nan, None), p) ∧
  GetSpotInstanceTypeNDayAvgCost (H := refRuntime) p 1700000000000000000
    "t3.micro" [] 30
  = Returned ((nan, None), p).
Proof.
  intros p. split.
  - apply (proj1 (no_zone_selected_is_nan (H := refRuntime) p 1700000000000000000
                    "m5.large" ["us-west-2a"%string] 30)
             {[ "us-east-1a"%string := hourSeries 4 ]}).
    + reflexivity.
    + intros z es Hz. apply lookup_singleton_Some in Hz as [<- _]. reflexivity.
  - apply (proj2 (no_zone_selected_is_nan (H := refRuntime) p 1700000000000000000
                    "t3.micro" [] 30) ∅).
    + reflexivity.
    + reflexivity.
    + intros z es Hz. by rewrite lookup_empty in Hz.
Defined.

Lemma filter_agree {A} (f g : A → bool) (l : list A) :
  (∀ x, x ∈ l → f x = g x) → List.filter f l = List.filter g l.
Proof.
  induction l as [|x l IH]; intros Hfg; simpl; [done|].
  rewrite (Hfg x) by (apply elem_of_cons; by left).
  rewrite IH; [done|]. intros y Hy. apply Hfg. apply elem_of_cons. by right.
Qed.

Section MatchingFacts.
Context `{Runtime}.

(** Where the test of line 133 and membership agree on the zones of the
    data, the loop adds up the matching zones. *)
Lemma selectedZones_matching
    (zoneToPriceEntries : gmap string (list spotPricingEntry))
    (availabilityZones : list string) :
  (∀ z es, zoneToPriceEntries !! z = Some es →
           zoneSelected availabilityZones z = zoneMatches availabilityZones z) →
  selectedZones availabilityZones zoneToPriceEntries
  = matchingZones availabilityZones zoneToPriceEntries.
Proof.
  intros Hagree. unfold selectedZones, matchingZones. apply filter_agree.
  intros [z es] Hin. simpl. apply (Hagree z es).
  rewrite rangeMap_perm in Hin. by apply elem_of_map_to_list in Hin.
Qed.

(** The zones "us-east-1a" and "us-east-1ab" under the filter
    ["us-east-1ab"]: the loop adds up both, one of them matches. *)
Lemma one_member_two_selected (es1 es2 : list spotPricingEntry) :
  let data : gmap string (list spotPricingEntry) :=
    {[ "us-east-1a"%string := es1; "us-east-1ab"%string := es2 ]} in
  matchingZones ["us-east-1ab"%string] data = [("us-east-1ab"%string, es2)] ∧
  (averageOverZones data ["us-east-1ab"%string]
   = ((float64.zero + calculateSpotAggregate es1 + calculateSpotAggregate es2)
      / float64.of_Z 2)%float ∨
   averageOverZones data ["us-east-1ab"%string]
   = ((float64.zero + calculateSpotAggregate es2 + calculateSpotAggregate es1)
      / float64.of_Z 2)%float).
Proof.
  intros data. split.
  - unfold matchingZones.
    pose proof (rangeMap_perm _ data) as Hp. unfold data in Hp.
    rewrite map_to_list_insert in Hp by by rewrite lookup_singleton_ne.
    rewrite map_to_list_singleton in Hp. symmetry in Hp.
    apply Permutation_length_2_inv in Hp as [Hs|Hs]; unfold data; by rewrite Hs.
  - by apply averageOverZones_two.
Qed.

End MatchingFacts.

(** C5 (the code departs from the claim). The figure of a query is the
    unweighted mean of the per-zone averages of the zones that match the
    filter, summed in the order the loop meets them, wherever the test
    of line 133 and membership in the filter agree on the zones of the
    data: so it is for the empty filter, which lets every zone of the
    data through, each once, and two zones with averages $4 and $8 and
    no filter give $6. Where they disagree the figure is not that mean:
    with the zones "us-east-1a" (average $4) and "us-east-1ab" (average
    $8) and the filter ["us-east-1ab"], one zone matches and the mean
    is $8, and the query returns $6. *)
Theorem mean_of_matching_zones `{Runtime} :
  (∀ (zoneToPriceEntries : gmap string (list spotPricingEntry)) zones,
     (∀ z es, zoneToPriceEntries !! z = Some es →
              zoneSelected zones z = zoneMatches zones z) →
     averageOverZones zoneToPriceEntries zones
     = arithmeticMean ((λ ze, calculateSpotAggregate ze.2)
                         <$> matchingZones zones zoneToPriceEntries)) ∧
  (∀ zoneToPriceEntries : gmap string (list spotPricingEntry),
     matchingZones [] zoneToPriceEntries = rangeMap zoneToPriceEntries ∧
     rangeMap zoneToPriceEntries ≡ₚ map_to_list zoneToPriceEntries ∧
     averageOverZones zoneToPriceEntries []
     = arithmeticMean ((λ ze, calculateSpotAggregate ze.2)
                         <$> matchingZones [] zoneToPriceEntries)) ∧
  (∀ p now instanceType zones days cached,
     spotCache p !! instanceType = Some cached →
     (∀ z es, copyCachedZones cached !! z = Some es →
              zoneSelected zones z = zoneMatches zones z) →
     GetSpotInstanceTypeNDayAvgCost p now instanceType zones days
     = Returned ((arithmeticMean
                    ((λ ze, calculateSpotAggregate ze.2)
                       <$> matchingZones zones (copyCachedZones cached)), None), p)) ∧
  (∀ p now instanceType zones days zoneToPriceEntries,
     spotCache p !! instanceType = None →
     (let fetched := EC2Client p (spotPriceHistInput now days [instanceType]) in
      runPages (pages fetched) (failure fetched) spotQueryPage (∅, None)
      = Returned ((zoneToPriceEntries, None), None)) →
     (∀ z es, zoneToPriceEntries !! z = Some es →
              zoneSelected zones z = zoneMatches zones z) →
     GetSpotInstanceTypeNDayAvgCost p now instanceType zones days
     = Returned ((arithmeticMean
                    ((λ ze, calculateSpotAggregate ze.2)
                       <$> matchingZones zones zoneToPriceEntries), None), p)) ∧
  (∀ (z1 z2 : string) (es1 es2 : list spotPricingEntry),
     z1 ≠ z2 →
     calculateSpotAggregate es1 = 4%float → calculateSpotAggregate es2 = 8%float →
     averageOverZones {[ z1 := es1; z2 := es2 ]} [] = 6%float) ∧
  (∀ (p : EC2Pricing) (now : time.Time) (days : Z),
     let cached : gmap string (list spotPricingEntry) :=
       {[ "us-east-1a"%string := hourSeries 4;
          "us-east-1ab"%string := hourSeries 8 ]} in
     spotCache p !! "m5.large"%string = Some cached →
     GetSpotInstanceTypeNDayAvgCost p now "m5.large" ["us-east-1ab"%string] days
       = Returned ((6%float, None), p) ∧
     arithmeticMean ((λ ze, calculateSpotAggregate ze.2)
                       <$> matchingZones ["us-east-1ab"%string]
                             (copyCachedZones cached))
       = 8%float).
Proof.
  split_and!.
  - intros data zones Hagree.
    by rewrite averageOverZones_mean, selectedZones_matching.
  - intros data.
    assert (Hall : matchingZones [] data = rangeMap data).
    { unfold matchingZones. induction (rangeMap data) as [|ze l IH]; [done|].
      cbn [List.filter zoneMatches]. f_equal. exact IH. }
    split_and!; [done|apply rangeMap_perm|].
    by rewrite averageOverZones_mean, selectedZones_nil, Hall.
  - intros p now instanceType zones days cached Hp Hagree.
    unfold GetSpotInstanceTypeNDayAvgCost. rewrite Hp.
    by rewrite averageOverZones_mean, selectedZones_matching.
  - intros p now instanceType zones days data Hp Hfetch Hagree.
    unfold GetSpotInstanceTypeNDayAvgCost. rewrite Hp. cbv zeta in Hfetch |- *.
    rewrite Hfetch. simpl.
    by rewrite averageOverZones_mean, selectedZones_matching.
  - intros z1 z2 es1 es2 Hne H4 H8.
    destruct (averageOverZones_two z1 z2 es1 es2 []) as [Hr|Hr]; try done;
      rewrite Hr, H4, H8; reflexivity.
  - intros p now days cached Hp.
    assert (H4 : calculateSpotAggregate (hourSeries 4) = 4%float)
      by by rewrite (two_point_average 1700000000000000000 10 4).
    assert (H8 : calculateSpotAggregate (hourSeries 8) = 8%float)
      by by rewrite (two_point_average 1700000000000000000 10 8).
    assert (Hcopy : copyCachedZones cached = cached).
    { apply copyCachedZones_nonempty. intros z es Hz.
      apply lookup_insert_Some in Hz as [[_ <-]|[_ Hz]]; [done|].
      apply lookup_singleton_Some in Hz as [_ <-]. done. }
    destruct (one_member_two_selected (hourSeries 4) (hourSeries 8))
      as [Hmatch Hsum].
    split.
    + unfold GetSpotInstanceTypeNDayAvgCost. rewrite Hp, Hcopy.
      destruct Hsum as [Hr|Hr]; unfold cached; rewrite Hr, H4, H8; reflexivity.
    + rewrite Hcopy. unfold cached. rewrite Hmatch. simpl.
      unfold arithmeticMean. simpl. rewrite H8. reflexivity.
Qed.

Lemma mean_of_matching_zones_witness :
  let p := offline ∅ {[ "m5.large"%string :=
                          {[ "us-east-1a"%string := hourSeries 4;
                             "us-east-1ab"%string := hourSeries 8 ]} ]} in
  GetSpotInstanceTypeNDayAvgCost (H := refRuntime) p 1700000000000000000
    "m5.large" ["us-east-1ab"%string] 30
  = Returned ((6%float, None), p) ∧
  arithmeticMean ((λ ze, calculateSpotAggregate (H := refRuntime) ze.2)
                    <$> matchingZones (H := refRuntime) ["us-east-1ab"%string]
                          (copyCachedZones (H := refRuntime)
                             {[ "us-east-1a"%string := hourSeries 4;
                                "us-east-1ab"%string := hourSeries 8 ]}))
  = 8%float.
Proof.
  intros p.
  apply (proj2 (proj2 (proj2 (proj2 (proj2
           (mean_of_matching_zones (H := refRuntime)))))) p
           1700000000000000000 30).
  reflexivity.
Defined.

(** ** Paging *)

Lemma forEach_app {X S} (xs ys : list X) (body : X → S → outcome S) (st : S) :
  forEach (xs ++ ys) body st = (st' ← forEach xs body st; forEach ys body st').
Proof.
  revert st. induction xs as [|x xs IH]; intros st; [done|].
  cbn [app forEach]. destruct (body x st) as [st'|]; simpl; [apply IH|done].
Qed.

(** A callback that takes every record of every page and always asks
    for more sees the records of all the pages in a row, and the fetch
    ends with the failure of the transport, if there is one. *)
Lemma runPages_collect {P X S} (recs : P → list X) (body : X → S → outcome S)
    (ps : list P) (failure : option error) (st : S) :
  runPages ps failure (λ pg st, st' ← forEach (recs pg) body st; Returned (st', true)) st
  = (st' ← forEach (concat (recs <$> ps)) body st; Returned (st', failure)).
Proof.
  revert st. induction ps as [|pg ps IH]; intros st; [done|].
  cbn [runPages fmap list_fmap concat]. rewrite forEach_app.
  destruct (forEach (recs pg) body st) as [st'|]; simpl; [apply IH|done].
Qed.

Lemma combined_snoc (errs : list error) (e : error) :
  combined (errs ++ [e]) = multierr.Append (combined errs) (Some e).
Proof. unfold combined. by rewrite fold_left_app. Qed.

(** Two or more single errors combine into the [MultiError] that lists
    them in order. *)
Lemma combined_many (e1 e2 : error) (errs : list error) :
  Forall single (e1 :: e2 :: errs) →
  combined (e1 :: e2 :: errs) = Some (MultiError (e1 :: e2 :: errs)).
Proof.
  induction errs as [|e errs IH] using rev_ind; intros Hs.
  - apply Forall_cons in Hs as [H1 Hs]. apply Forall_cons in Hs as [H2 _].
    destruct e1, e2; simpl in *; done.
  - rewrite !app_comm_cons, combined_snoc.
    rewrite !app_comm_cons in Hs. apply Forall_app in Hs as [Hs He].
    rewrite IH by done. apply Forall_cons in He as [He _].
    destruct e; simpl in *; done.
Qed.

Lemma fold_insert_list_to_map {V} (l : list (string * V)) :
  fold_left (λ m '(k, v), <[k := v]> m) l (∅ : gmap string V)
  = list_to_map (reverse l).
Proof.
  induction l as [|[k v] l IH] using rev_ind; [done|].
  rewrite fold_left_app, reverse_snoc. simpl. by rewrite IH.
Qed.

Section HydrationFacts.
Context `{Runtime}.

(** *** HydrateOndemandCache *)

(** The loop of lines 273-280 over documents none of which makes the
    parser panic. *)
Lemma onDemandHydrate_docs (docs : list (gmap string jvalue))
    (results : list (string * float * option error))
    (cache : gmap string float) (err : option error) :
  Forall2 (λ doc r, parseOndemandUnitPrice doc = Returned r) docs results →
  forEach docs
    (λ priceDoc '(newOnDemandCache, processingErr),
       '(instanceTypeName, price, errParse) ← parseOndemandUnitPrice priceDoc;
       match errParse with
       | Some e =>
           Returned (newOnDemandCache, multierr.Append processingErr (Some e))
       | None =>
           Returned (<[instanceTypeName := price]> newOnDemandCache, processingErr)
       end) (cache, err)
  = Returned (fold_left (λ m '(k, v), <[k := v]> m) (parsedSubset results) cache,
              fold_left (λ acc e, multierr.Append acc (Some e))
                        (parseErrors results) err).
Proof.
  intros Hdocs. revert cache err.
  induction Hdocs as [|doc [[name price] [e|]] docs results Hdoc _ IH];
    intros cache err; [done| |]; cbn [forEach]; rewrite Hdoc; simpl; apply IH.
Qed.

Lemma onDemandHydrate_pages (ps : list pricing.GetProductsOutput)
    (failure : option error) (st : gmap string float * option error) :
  runPages ps failure onDemandHydratePage st
  = (st' ← forEach (concat (pricing.PriceList <$> ps))
       (λ priceDoc '(newOnDemandCache, processingErr),
          '(instanceTypeName, price, errParse) ← parseOndemandUnitPrice priceDoc;
          match errParse with
          | Some e =>
              Returned (newOnDemandCache, multierr.Append processingErr (Some e))
          | None =>
              Returned (<[instanceTypeName := price]> newOnDemandCache, processingErr)
          end) st;
     Returned (st', failure)).
Proof. apply (runPages_collect pricing.PriceList). Qed.

(** The whole of the hydration, when no document makes the parser
    panic: what the transport says decides between leaving the facade
    as it is and committing what was parsed. *)
Lemma HydrateOndemandCache_parsed (p : EC2Pricing) (cTime : time.Time)
    (regionDescription : string)
    (results : list (string * float * option error)) :
  getRegionForPricingAPI p = Returned regionDescription →
  let fetched := PricingClient p (productInput regionDescription None) in
  Forall2 (λ doc r, parseOndemandUnitPrice doc = Returned r)
          (concat (pricing.PriceList <$> pages fetched)) results →
  HydrateOndemandCache p cTime
  = match failure fetched with
    | Some e => Returned (Some e, p)
    | None =>
        Returned (combined (parseErrors results),
                  setLastOnDemandCacheUTC (Some cTime)
                    (setOnDemandCache
                       (list_to_map (reverse (parsedSubset results))) p))
    end.
Proof.
  intros Hregion fetched Hdocs. unfold HydrateOndemandCache.
  rewrite Hregion. simpl. fold fetched.
  rewrite onDemandHydrate_pages, (onDemandHydrate_docs _ _ _ _ Hdocs). simpl.
  destruct (failure fetched); [done|].
  by rewrite fold_insert_list_to_map.
Qed.

(** Whatever the documents are: a failed fetch leaves the facade as it
    is, unless the parser panicked on the way. *)
Lemma HydrateOndemandCache_failed (p : EC2Pricing) (cTime : time.Time)
    (regionDescription : string) (e : error) :
  getRegionForPricingAPI p = Returned regionDescription →
  failure (PricingClient p (productInput regionDescription None)) = Some e →
  HydrateOndemandCache p cTime = Returned (Some e, p) ∨
  HydrateOndemandCache p cTime = Panicked.
Proof.
  intros Hregion Hfail. unfold HydrateOndemandCache.
  rewrite Hregion. simpl. rewrite onDemandHydrate_pages.
  destruct (forEach _ _ _) as [[cache perr]|]; simpl; [|by right].
  rewrite Hfail. by left.
Qed.


End HydrationFacts.

Lemma fileEvent_series (events : list spotEvent)
    (cache : gmap string (gmap string (list spotPricingEntry)))
    (it z : string) :
  (fold_left fileEvent events cache !!! it) !!! z
  = ((cache !!! it) !!! z) ++ seriesOf it z events.
Proof.
  revert cache. induction events as [|ev events IH]; intros cache.
  - by rewrite app_nil_r.
  - cbn [fold_left]. rewrite IH. unfold seriesOf at 2. cbn [omap list_omap].
    fold (seriesOf it z events).
    destruct ev as [it' z' entry|str]; simpl; [|done].
    unfold appendAt. destruct (decide (it' = it ∧ z' = z)) as [[-> ->]|Hne].
    + rewrite !lookup_total_insert_eq. by rewrite <- app_assoc.
    + destruct (decide (it' = it)) as [->|Hit].
      * rewrite lookup_total_insert_eq, lookup_total_insert_ne; [done|].
        intros ->. by apply Hne.
      * by rewrite lookup_total_insert_ne.
Qed.

Lemma fileEvent_present (events : list spotEvent)
    (cache : gmap string (gmap string (list spotPricingEntry))) (it : string) :
  is_Some (fold_left fileEvent events cache !! it)
  ↔ is_Some (cache !! it) ∨ ∃ z entry, Priced it z entry ∈ events.
Proof.
  revert cache. induction events as [|ev events IH]; intros cache.
  - simpl. split; [by left|]. intros [?|(z & entry & Hin)]; [done|].
    by apply elem_of_nil in Hin.
  - cbn [fold_left]. rewrite IH. destruct ev as [it' z' entry|str]; simpl.
    + destruct (decide (it' = it)) as [->|Hit].
      * rewrite lookup_insert_eq. split; intros _.
        -- right. exists z', entry. apply elem_of_cons. by left.
        -- left. by eexists.
      * rewrite lookup_insert_ne by done. split.
        -- intros [?|(z & e & Hin)]; [by left|]. right. exists z, e.
           apply elem_of_cons. by right.
        -- intros [?|(z & e & Hin)]; [by left|]. right. exists z, e.
           apply elem_of_cons in Hin as [Heq|Hin]; [congruence|done].
    + split.
      * intros [?|(z & e & Hin)]; [by left|]. right. exists z, e.
        apply elem_of_cons. by right.
      * intros [?|(z & e & Hin)]; [by left|]. right. exists z, e.
        apply elem_of_cons in Hin as [Heq|Hin]; [congruence|done].
Qed.

Section SpotHydrationFacts.
Context `{Runtime}.

(** The loop of lines 226-241 over records none of which makes the
    code dereference nil. *)
Lemma spotHydrate_records (records : list ec2.SpotPriceT)
    (events : list spotEvent)
    (cache : gmap string (gmap string (list spotPricingEntry)))
    (err : option error) :
  Forall2 (λ history ev, readSpotEvent history = Some ev) records events →
  forEach records
    (λ history '(newCache, processingErr),
       str ← deref (ec2.SpotPrice history);
       match ParseFloat str with
       | None =>
           Returned (newCache,
                     multierr.Append processingErr (Some (NumError str)))
       | Some spotPrice =>
           instanceType ← deref (ec2.InstanceType history);
           zone ← deref (ec2.AvailabilityZone history);
           let newCache :=
             match newCache !! instanceType with
             | Some _ => newCache
             | None => <[instanceType := ∅]> newCache
             end in
           ts ← deref (ec2.Timestamp history);
           Returned (<[instanceType :=
                        appendAt zone {| Timestamp := ts; SpotPrice := spotPrice |}
                                 (newCache !!! instanceType)]> newCache,
                     processingErr)
       end) (cache, err)
  = Returned (fold_left fileEvent events cache,
              fold_left (λ acc e, multierr.Append acc (Some e))
                        (priceErrors events) err).
Proof.
  intros Hrecs. revert cache err.
  induction Hrecs as [|history ev records events Hev _ IH]; intros cache err;
    [done|].
  cbn [forEach]. unfold readSpotEvent in Hev.
  destruct history as [az it sp ts]. simpl in *.
  destruct sp as [str|]; simpl in *; [|done].
  destruct (ParseFloat str) as [price|]; simpl in *.
  - destruct it as [it|]; simpl in *; [|done].
    destruct az as [az|]; simpl in *; [|done].
    destruct ts as [ts|]; simpl in *; [|done].
    injection Hev as <-. rewrite IH. cbn [fold_left fileEvent].
    do 3 f_equal.
    destruct (cache !! it) as [zs|] eqn:Hit; [done|].
    rewrite lookup_total_insert_eq, insert_insert_eq.
    by rewrite (lookup_total_alt cache), Hit.
  - injection Hev as <-. by rewrite IH.
Qed.

Lemma spotHydrate_pages (ps : list ec2.DescribeSpotPriceHistoryOutput)
    (failure : option error)
    (st : gmap string (gmap string (list spotPricingEntry)) * option error) :
  runPages ps failure spotHydratePage st
  = (st' ← forEach (concat (ec2.SpotPriceHistory <$> ps))
       (λ history '(newCache, processingErr),
          str ← deref (ec2.SpotPrice history);
          match ParseFloat str with
          | None =>
              Returned (newCache,
                        multierr.Append processingErr (Some (NumError str)))
          | Some spotPrice =>
              instanceType ← deref (ec2.InstanceType history);
              zone ← deref (ec2.AvailabilityZone history);
              let newCache :=
                match newCache !! instanceType with
                | Some _ => newCache
                | None => <[instanceType := ∅]> newCache
                end in
              ts ← deref (ec2.Timestamp history);
              Returned (<[instanceType :=
                           appendAt zone {| Timestamp := ts; SpotPrice := spotPrice |}
                                    (newCache !!! instanceType)]> newCache,
                        processingErr)
          end) st;
     Returned (st', failure)).
Proof. apply (runPages_collect ec2.SpotPriceHistory). Qed.

Lemma HydrateSpotCache_read (p : EC2Pricing) (now cTime : time.Time) (days : Z)
    (events : list spotEvent) :
  let fetched := EC2Client p (spotPriceHistInput now days []) in
  Forall2 (λ history ev, readSpotEvent history = Some ev)
          (concat (ec2.SpotPriceHistory <$> pages fetched)) events →
  HydrateSpotCache p now cTime days
  = match failure fetched with
    | Some e => Returned (Some e, p)
    | None =>
        Returned (combined (priceErrors events),
                  setLastSpotCacheUTC (Some cTime)
                    (setSpotCache (fold_left fileEvent events ∅) p))
    end.
Proof.
  intros fetched Hrecs. unfold HydrateSpotCache. cbv zeta. fold fetched.
  rewrite spotHydrate_pages, (spotHydrate_records _ _ _ _ Hrecs). simpl.
  by destruct (failure fetched).
Qed.

Lemma HydrateSpotCache_failed (p : EC2Pricing) (now cTime : time.Time) (days : Z)
    (e : error) :
  failure (EC2Client p (spotPriceHistInput now days [])) = Some e →
  HydrateSpotCache p now cTime days = Returned (Some e, p) ∨
  HydrateSpotCache p now cTime days = Panicked.
Proof.
  intros Hfail. unfold HydrateSpotCache. cbv zeta.
  rewrite spotHydrate_pages.
  destruct (forEach _ _ _) as [[cache perr]|]; simpl; [|by right].
  rewrite Hfail. by left.
Qed.

End SpotHydrationFacts.

Section ParserFacts.
Context `{Runtime}.

Lemma parseOndemandTerms_single (name : string) (terms : list (string * jvalue))
    (n : string) (pr : float) (e : error) :
  parseOndemandTerms name terms = Returned (n, pr, Some e) → single e.
Proof.
  induction terms as [|[k v] terms IH]; simpl.
  - by intros [= <- <- <-].
  - unfold asMap, asString, mbind, outcome_bind.
    repeat case_match; try done; try (by intros [= <- <- <-]).
Qed.

(** Every error of the parser is one [fmt.Errorf] value. *)
Lemma parseOndemandUnitPrice_single (priceList : gmap string jvalue)
    (n : string) (pr : float) (e : error) :
  parseOndemandUnitPrice priceList = Returned (n, pr, Some e) → single e.
Proof.
  unfold parseOndemandUnitPrice, asMap, mbind, outcome_bind.
  repeat case_match; try done; try (by intros [= <- <- <-]).
  all: apply parseOndemandTerms_single.
Qed.

Lemma parseErrors_single (docs : list (gmap string jvalue))
    (results : list (string * float * option error)) :
  Forall2 (λ doc r, parseOndemandUnitPrice doc = Returned r) docs results →
  Forall single (parseErrors results).
Proof.
  induction 1 as [|doc [[n pr] [e|]] docs results Hdoc _ IH]; simpl;
    [constructor| |done].
  constructor; [|done]. by eapply parseOndemandUnitPrice_single.
Qed.

End ParserFacts.

Section StageFacts.
Context `{Runtime}.

(** The stages of the parser on a record whose "product" is an object:
    what each absent or ill-typed field is answered with, and with which
    instance-type name. *)
Lemma parser_stage_errors (priceList product : gmap string jvalue) :
  priceList !! "product"%string = Some (JObject product) →
  (product !! "attributes"%string = None →
   parseOndemandUnitPrice priceList
   = Returned (EmptyString, minusOne,
               Some (Errorf "Unable to find product attributes"))) ∧
  (∀ attrs, product !! "attributes"%string = Some (JObject attrs) →
     ((∀ name, attrs !! "instanceType"%string ≠ Some (JString name)) →
      parseOndemandUnitPrice priceList
      = Returned (EmptyString, minusOne,
                  Some (Errorf "Unable to find instance type name from product attributes"))) ∧
     (∀ name, attrs !! "instanceType"%string = Some (JString name) →
        (priceList !! "terms"%string = None →
         parseOndemandUnitPrice priceList
         = Returned (name, minusOne, Some (Errorf "Unable to find pricing terms"))) ∧
        (∀ terms, priceList !! "terms"%string = Some (JObject terms) →
           (terms !! "OnDemand"%string = None →
            parseOndemandUnitPrice priceList
            = Returned (name, minusOne,
                        Some (Errorf "Unable to find on-demand pricing terms"))) ∧
           (∀ onDemand, terms !! "OnDemand"%string = Some (JObject onDemand) →
              parseOndemandUnitPrice priceList
              = parseOndemandTerms name (rangeMap onDemand))))).
Proof.
  intros Hproduct. unfold parseOndemandUnitPrice. rewrite Hproduct. simpl.
  split; [by intros ->|].
  intros attrs ->. simpl. split.
  - intros Hname. destruct (attrs !! "instanceType"%string) as [[]|]; try done.
    by destruct (Hname s).
  - intros name ->. split; [by intros ->|].
    intros terms ->. simpl. split; [by intros ->|].
    by intros onDemand ->.
Qed.

(** The first on-demand term, when it and what it holds are objects. *)
Lemma parser_term_errors (name key : string) (term : gmap string jvalue)
    (rest : list (string * jvalue)) :
  let terms := (key, JObject term) :: rest in
  (term !! "priceDimensions"%string = None →
   parseOndemandTerms name terms
   = Returned (name, minusOne,
               Some (Errorf "Unable to find on-demand pricing dimensions"))) ∧
  (∀ dimMap, term !! "priceDimensions"%string = Some (JObject dimMap) →
     (rangeMap dimMap = [] →
      parseOndemandTerms name terms = parseOndemandTerms name rest) ∧
     (∀ k dims tail, rangeMap dimMap = (k, JObject dims) :: tail →
        (dims !! "pricePerUnit"%string = None →
         parseOndemandTerms name terms
         = Returned (name, minusOne,
             Some (Errorf "Unable to find on-demand price per unit in pricing dimensions"))) ∧
        (∀ perUnit, dims !! "pricePerUnit"%string = Some (JObject perUnit) →
           (perUnit !! "USD"%string = None →
            parseOndemandTerms name terms
            = Returned (name, minusOne,
                Some (Errorf "Unable to find on-demand price per unit in USD"))) ∧
           (∀ str, perUnit !! "USD"%string = Some (JString str) →
              (ParseFloat str = None →
               parseOndemandTerms name terms
               = Returned (name, minusOne,
                   Some (Errorf "Could not convert price per unit in USD to a float64"))) ∧
              (∀ price, ParseFloat str = Some price →
                 parseOndemandTerms name terms = Returned (name, price, None)))))).
Proof.
  intros terms. unfold terms. cbn [parseOndemandTerms asMap mbind outcome_bind].
  split; [by intros ->|].
  intros dimMap ->. cbn [asMap mbind outcome_bind]. split; [by intros ->|].
  intros k dims tail ->. cbn [asMap mbind outcome_bind]. split; [by intros ->|].
  intros perUnit ->. cbn [asMap mbind outcome_bind]. split; [by intros ->|].
  intros str ->. cbn [asString mbind outcome_bind]. split; [by intros ->|].
  by intros price ->.
Qed.

(** A well-formed record gives back the instance type and the price it
    was built with. *)
Lemma parse_priceDoc (instanceType usd : string) (price : float) :
  ParseFloat usd = Some price →
  parseOndemandUnitPrice (priceDoc instanceType usd)
  = Returned (instanceType, price, None).
Proof.
  intros Hprice.
  assert (Hone : ∀ (k : string) (v : jvalue), rangeMap {[ k := v ]} = [(k, v)]).
  { intros k v. pose proof (rangeMap_perm _ ({[ k := v ]} : gmap string jvalue)) as Hp.
    rewrite map_to_list_singleton in Hp. by apply Permutation_singleton_r in Hp. }
  unfold parseOndemandUnitPrice, priceDoc, obj.
  cbn [list_to_map foldr uncurry fst snd].
  rewrite !insert_empty.
  rewrite lookup_insert_eq. cbn [asMap mbind outcome_bind].
  rewrite lookup_singleton_eq. cbn [asMap mbind outcome_bind].
  rewrite lookup_singleton_eq.
  rewrite lookup_insert_ne by done. rewrite lookup_singleton_eq.
  cbn [asMap mbind outcome_bind]. rewrite lookup_singleton_eq.
  cbn [asMap mbind outcome_bind]. rewrite Hone.
  cbn [parseOndemandTerms asMap mbind outcome_bind].
  rewrite lookup_singleton_eq. cbn [asMap mbind outcome_bind]. rewrite Hone.
  cbn [asMap mbind outcome_bind]. rewrite lookup_singleton_eq.
  cbn [asMap mbind outcome_bind]. rewrite lookup_singleton_eq.
  cbn [asString mbind outcome_bind]. by rewrite Hprice.
Qed.

End StageFacts.

Lemma priceErrors_single (events : list spotEvent) :
  Forall single (priceErrors events).
Proof.
  induction events as [|[it z e|str] events IH]; simpl;
    [constructor|done|by constructor].
Qed.

(** A loop whose body panics on one of the elements panics, wherever
    the element stands. *)
Lemma forEach_panics {X S} (xs : list X) (body : X → S → outcome S) (x : X) (st : S) :
  x ∈ xs → (∀ st', body x st' = Panicked) → forEach xs body st = Panicked.
Proof.
  intros Hin Hx. revert st. induction xs as [|y xs IH]; intros st.
  { by apply elem_of_nil in Hin. }
  cbn [forEach]. apply elem_of_cons in Hin as [<-|Hin].
  - by rewrite Hx.
  - destruct (body y st) as [st'|]; simpl; [by apply IH|done].
Qed.

Section PanicFacts.
Context `{Runtime}.

(** A record on which the parser panics ends the hydration, whatever
    the documents around it and whatever the transport says at the end. *)
Lemma HydrateOndemandCache_panics (p : EC2Pricing) (cTime : time.Time)
    (regionDescription : string) (doc : gmap string jvalue) :
  getRegionForPricingAPI p = Returned regionDescription →
  doc ∈ concat (pricing.PriceList
                  <$> pages (PricingClient p (productInput regionDescription None))) →
  parseOndemandUnitPrice doc = Panicked →
  HydrateOndemandCache p cTime = Panicked.
Proof.
  intros Hregion Hin Hdoc. unfold HydrateOndemandCache.
  rewrite Hregion. simpl. rewrite onDemandHydrate_pages.
  rewrite (forEach_panics _ _ doc); [done|done|].
  intros [cache err]. by rewrite Hdoc.
Qed.

(** So does a spot record with a nil field that the loop dereferences. *)
Lemma HydrateSpotCache_panics (p : EC2Pricing) (now cTime : time.Time) (days : Z)
    (history : ec2.SpotPriceT) :
  history ∈ concat (ec2.SpotPriceHistory
                      <$> pages (EC2Client p (spotPriceHistInput now days []))) →
  readSpotEvent history = None →
  HydrateSpotCache p now cTime days = Panicked.
Proof.
  intros Hin Hnil. unfold HydrateSpotCache. cbv zeta.
  rewrite spotHydrate_pages.
  rewrite (forEach_panics _ _ history); [done|done|].
  intros [cache err]. revert Hnil. unfold readSpotEvent.
  destruct history as [zone it price ts]. simpl.
  destruct price as [str|]; simpl; [|done].
  destruct (ParseFloat str); [|done].
  destruct it; simpl; [|done]. destruct zone; simpl; [|done].
  destruct ts; simpl; done.
Qed.

End PanicFacts.



(** C8 (the code departs from the claim). When the fetch succeeds and
    every record is read without a panic, records that fail to parse do
    not stop the hydration: what parsed replaces the cache (for
    on-demand prices the last price of each instance type, for spot
    prices the series of each instance type and zone in order of
    arrival), the timestamp is set, and the errors of the failed records
    come back as one value: the error itself if there is one, a
    MultiError listing them in order if there are more. A record on
    which the parser panics (for spot prices, a record with a nil field)
    does stop it: the call ends in a panic, nothing is committed and no
    error value is returned; so it is for a fetch with a priced document
    and a record without "product". *)
Theorem panicking_record_aborts_hydration `{Runtime} :
  (∀ (p : EC2Pricing) (cTime : time.Time) (regionDescription : string),
     getRegionForPricingAPI p = Returned regionDescription →
     let fetched := PricingClient p (productInput regionDescription None) in
     failure fetched = None →
     (∀ results : list (string * float * option error),
        Forall2 (λ doc r, parseOndemandUnitPrice doc = Returned r)
                (concat (pricing.PriceList <$> pages fetched)) results →
        HydrateOndemandCache p cTime
        = Returned (combined (parseErrors results),
                    setLastOnDemandCacheUTC (Some cTime)
                      (setOnDemandCache
                         (list_to_map (reverse (parsedSubset results))) p))
        ∧ Forall single (parseErrors results)) ∧
     (∀ doc,
        doc ∈ concat (pricing.PriceList <$> pages fetched) →
        parseOndemandUnitPrice doc = Panicked →
        HydrateOndemandCache p cTime = Panicked)) ∧
  (∀ (p : EC2Pricing) (now cTime : time.Time) (days : Z),
     let fetched := EC2Client p (spotPriceHistInput now days []) in
     failure fetched = None →
     (∀ events : list spotEvent,
        Forall2 (λ history ev, readSpotEvent history = Some ev)
                (concat (ec2.SpotPriceHistory <$> pages fetched)) events →
        ∃ newCache,
          HydrateSpotCache p now cTime days
          = Returned (combined (priceErrors events),
                      setLastSpotCacheUTC (Some cTime) (setSpotCache newCache p)) ∧
          (∀ it z, (newCache !!! it) !!! z = seriesOf it z events) ∧
          (∀ it, is_Some (newCache !! it) ↔ ∃ z entry, Priced it z entry ∈ events) ∧
          Forall single (priceErrors events)) ∧
     (∀ history,
        history ∈ concat (ec2.SpotPriceHistory <$> pages fetched) →
        readSpotEvent history = None →
        HydrateSpotCache p now cTime days = Panicked)) ∧
  combined [] = None ∧
  (∀ e, combined [e] = Some e) ∧
  (∀ e1 e2 errs, Forall single (e1 :: e2 :: errs) →
                 combined (e1 :: e2 :: errs) = Some (MultiError (e1 :: e2 :: errs))) ∧
  (∀ (cTime : time.Time) (regionDescription : string) (price : float),
     ParseFloat "0.0104" = Some price →
     failure (PricingClient choked (productInput regionDescription None)) = None ∧
     parseOndemandUnitPrice (priceDoc "t3.micro" "0.0104")
       = Returned ("t3.micro"%string, price, None) ∧
     parseOndemandUnitPrice ∅ = Panicked ∧
     HydrateOndemandCache choked cTime = Panicked).
Proof.
  split_and!; [| |done|done|apply combined_many|].
  - intros p cTime rd Hregion fetched Hfail. split.
    + intros results Hdocs. split.
      * rewrite (HydrateOndemandCache_parsed p cTime rd results Hregion Hdocs).
        fold fetched. by rewrite Hfail.
      * by eapply parseErrors_single.
    + intros doc Hin Hdoc. by apply (HydrateOndemandCache_panics p cTime rd doc).
  - intros p now cTime days fetched Hfail. split.
    + intros events Hrecs.
      exists (fold_left fileEvent events ∅). split_and!.
      * rewrite (HydrateSpotCache_read p now cTime days events Hrecs).
        fold fetched. by rewrite Hfail.
      * intros it z. rewrite fileEvent_series.
        by rewrite !lookup_total_empty.
      * intros it. rewrite fileEvent_present, lookup_empty.
        split; [intros [[? ?]|?]; done|by right].
      * apply priceErrors_single.
    + intros history Hin Hnil. by apply (HydrateSpotCache_panics p now cTime days history).
  - intros cTime regionDescription price Hprice.
    split_and!; [done|by apply parse_priceDoc|done|].
    destruct (getRegionForPricingAPI choked) as [rd|] eqn:Hregion.
    + apply (HydrateOndemandCache_panics choked cTime rd ∅ Hregion); [|done].
      simpl. apply elem_of_cons. right. apply elem_of_cons. by left.
    + unfold HydrateOndemandCache. by rewrite Hregion.
Qed.

Lemma panicking_record_aborts_hydration_witness :
  HydrateOndemandCache (H := refRuntime) patchy 1700000300000000000
  = Returned
      (Some (MultiError
               [ Errorf "Could not convert price per unit in USD to a float64";
                 Errorf "Unable to find pricing terms" ]),
       setLastOnDemandCacheUTC (Some 1700000300000000000)
         (setOnDemandCache {[ "t3.micro"%string := 0.0116%float ]} patchy)) ∧
  (∃ newCache,
     HydrateSpotCache (H := refRuntime) patchy 1700000200000000000
       1700000300000000000 30
     = Returned (Some (NumError "?"),
                 setLastSpotCacheUTC (Some 1700000300000000000)
                   (setSpotCache newCache patchy)) ∧
     (newCache !!! "t3.micro"%string) !!! "us-east-1a"%string
     = [ {| Timestamp := 1700000000000000000; SpotPrice := 0.0031 |};
         {| Timestamp := 1700000120000000000; SpotPrice := 0.0035 |} ]) ∧
  parseOndemandUnitPrice (H := refRuntime) (priceDoc "t3.micro" "0.0104")
    = Returned ("t3.micro"%string, 0.0104%float, None) ∧
  HydrateOndemandCache (H := refRuntime) choked 1700000300000000000 = Panicked.
Proof.
  destruct (panicking_record_aborts_hydration (H := refRuntime))
    as (Hod & Hspot & _ & _ & _ & Hchoked).
  split_and!.
  - destruct (proj1 (Hod patchy 1700000300000000000 "US East (N. Virginia)"%string
                       eq_refl eq_refl)
                [ ("t3.micro"%string, 0.0104%float, None);
                  ("m5.large"%string, (-1)%float,
                   Some (Errorf "Could not convert price per unit in USD to a float64"));
                  ("c5.large"%string, (-1)%float,
                   Some (Errorf "Unable to find pricing terms"));
                  ("t3.micro"%string, 0.0116%float, None) ]
                ltac:(repeat constructor)) as [Hret _].
    rewrite Hret. reflexivity.
  - destruct (proj1 (Hspot patchy 1700000200000000000 1700000300000000000 30 eq_refl)
                [ Priced "t3.micro" "us-east-1a"
                    {| Timestamp := 1700000000000000000; SpotPrice := 0.0031 |};
                  Unparsable "?";
                  Priced "t3.micro" "us-east-1a"
                    {| Timestamp := 1700000120000000000; SpotPrice := 0.0035 |} ]
                ltac:(repeat constructor))
      as (newCache & Hret & Hseries & _).
    exists newCache. split; [exact Hret|]. by rewrite Hseries.
  - apply (Hchoked 0 EmptyString 0.0104%float). reflexivity.
  - apply (Hchoked 1700000300000000000 EmptyString 0.0104%float). reflexivity.
Defined.

Section QueryFacts.
Context `{Runtime}.

(** A page all of whose documents parse: the price of the last one is
    kept and the paging stops. *)
Lemma onDemandQueryDocs_parsed (docs : list (gmap string jvalue))
    (doc : gmap string jvalue) (name : string) (price : float)
    (st : float * option error) :
  Forall (λ d, ∃ n pr, parseOndemandUnitPrice d = Returned (n, pr, None)) docs →
  parseOndemandUnitPrice doc = Returned (name, price, None) →
  onDemandQueryDocs (docs ++ [doc]) st = Returned ((price, snd st), false).
Proof.
  intros Hdocs Hdoc. revert st.
  induction Hdocs as [|d docs (n & pr & Hd) _ IH]; intros st; simpl.
  - by rewrite Hdoc.
  - rewrite Hd. simpl. by rewrite IH.
Qed.

(** A query never writes to the facade. *)
Lemma GetOndemandInstanceTypeCost_pure (p p' : EC2Pricing) (instanceType : string)
    (r : float * option error) :
  GetOndemandInstanceTypeCost p instanceType = Returned (r, p') → p' = p.
Proof.
  unfold GetOndemandInstanceTypeCost.
  destruct (onDemandCache p !! instanceType); [by intros [= _ <-]|].
  destruct (getRegionForPricingAPI p) as [rd|]; simpl; [|done].
  destruct (runPages _ _ _ _) as [[[price perr] [e|]]|]; simpl; [| |done].
  - by intros [= _ <-].
  - destruct perr; by intros [= _ <-].
Qed.

End QueryFacts.

(** C6 (the code departs from the claim). The parser is not total: its
    type assertions have no ok form, so a record without "product"
    (the empty record, for one) or with terms that are not an object
    makes it panic instead of returning a ParseError. *)
Theorem parser_panics `{Runtime} :
  parseOndemandUnitPrice ∅ = Panicked ∧
  (∀ priceList : gmap string jvalue,
     priceList !! "product"%string = None →
     parseOndemandUnitPrice priceList = Panicked) ∧
  parseOndemandUnitPrice (<[ "terms"%string := JString "none" ]> (termlessDoc "t3.micro"))
  = Panicked.
Proof.
  split_and!.
  - reflexivity.
  - intros priceList Hp. unfold parseOndemandUnitPrice. by rewrite Hp.
  - reflexivity.
Qed.

Lemma parser_panics_witness :
  parseOndemandUnitPrice (H := refRuntime) {[ "terms"%string := obj [] ]} = Panicked.
Proof.
  apply (proj1 (proj2 (parser_panics (H := refRuntime)))). reflexivity.
Defined.

(** C9, as the code has it. A query that misses the on-demand cache and
    whose fetch and parse succeed returns the price it parsed and stores
    nothing: the on-demand cache still lacks the instance type and the
    timestamps are what they were; no query changes the facade. *)
Theorem query_miss_leaves_cache `{Runtime} :
  (∀ (p : EC2Pricing) (instanceType regionDescription : string)
     (pg : pricing.GetProductsOutput) (rest : list pricing.GetProductsOutput)
     (docs : list (gmap string jvalue)) (doc : gmap string jvalue)
     (name : string) (price : float),
     onDemandCache p !! instanceType = None →
     getRegionForPricingAPI p = Returned regionDescription →
     pages (PricingClient p (productInput regionDescription (Some instanceType)))
       = pg :: rest →
     pricing.PriceList pg = docs ++ [doc] →
     Forall (λ d, ∃ n pr, parseOndemandUnitPrice d = Returned (n, pr, None)) docs →
     parseOndemandUnitPrice doc = Returned (name, price, None) →
     ∃ p', GetOndemandInstanceTypeCost p instanceType = Returned ((price, None), p') ∧
           onDemandCache p' = onDemandCache p ∧
           onDemandCache p' !! instanceType = None ∧
           LastOnDemandCacheUTC p' = LastOnDemandCacheUTC p ∧
           LastSpotCacheUTC p' = LastSpotCacheUTC p) ∧
  (∀ (p p' : EC2Pricing) (instanceType : string) (r : float * option error),
     GetOndemandInstanceTypeCost p instanceType = Returned (r, p') → p' = p).
Proof.
  split; [|apply GetOndemandInstanceTypeCost_pure].
  intros p it rd pg rest docs doc name price Hmiss Hregion Hpages Hpg Hdocs Hdoc.
  exists p. split_and!; try done.
  unfold GetOndemandInstanceTypeCost. rewrite Hmiss, Hregion. simpl.
  rewrite Hpages. cbn [runPages]. unfold onDemandQueryPage. rewrite Hpg.
  by rewrite (onDemandQueryDocs_parsed docs doc name price _ Hdocs Hdoc).
Qed.

Lemma query_miss_leaves_cache_witness :
  ∃ p', GetOndemandInstanceTypeCost (H := refRuntime) cold "t3.micro"
        = Returned ((0.0104%float, None), p') ∧
        onDemandCache p' = onDemandCache cold ∧
        onDemandCache p' !! "t3.micro"%string = None ∧
        LastOnDemandCacheUTC p' = LastOnDemandCacheUTC cold ∧
        LastSpotCacheUTC p' = LastSpotCacheUTC cold.
Proof.
  apply (proj1 (query_miss_leaves_cache (H := refRuntime)) cold "t3.micro"
           "US East (N. Virginia)"%string
           {| pricing.PriceList := [ priceDoc "t3.micro" "0.0104" ] |} []
           [] (priceDoc "t3.micro" "0.0104") "t3.micro"%string);
    try reflexivity.
  constructor.
Defined.

(** The claim C9 as it is written fails: this query misses, fetches and
    parses the price, and the cache does not hold it afterwards. *)
Lemma query_miss_is_not_cached :
  ¬ (∀ (p p' : EC2Pricing) (instanceType : string) (price : float),
       onDemandCache p !! instanceType = None →
       GetOndemandInstanceTypeCost (H := refRuntime) p instanceType
         = Returned ((price, None), p') →
       onDemandCache p' !! instanceType = Some price).
Proof.
  intros Hclaim.
  specialize (Hclaim cold cold "t3.micro"%string 0.0104%float eq_refl eq_refl).
  discriminate Hclaim.
Qed.

(** C10. A query that misses the cache and whose fetch ends without a
    transport error and without a single record returns the price -1
    with a nil error. *)
Theorem empty_fetch_is_minus_one `{Runtime} (p : EC2Pricing)
    (instanceType regionDescription : string) :
  onDemandCache p !! instanceType = None →
  getRegionForPricingAPI p = Returned regionDescription →
  let fetched := PricingClient p (productInput regionDescription (Some instanceType)) in
  failure fetched = None →
  Forall (λ pg, pricing.PriceList pg = []) (pages fetched) →
  GetOndemandInstanceTypeCost p instanceType = Returned (((-1)%float, None), p).
Proof.
  intros Hmiss Hregion fetched Hfail Hempty.
  unfold GetOndemandInstanceTypeCost. rewrite Hmiss, Hregion. simpl. fold fetched.
  destruct (pages fetched) as [|pg rest]; simpl.
  - by rewrite Hfail.
  - apply Forall_cons in Hempty as [Hpg _].
    unfold onDemandQueryPage. by rewrite Hpg.
Qed.

Lemma empty_fetch_is_minus_one_witness :
  GetOndemandInstanceTypeCost (H := refRuntime) barren "t3.micro"
  = Returned (((-1)%float, None), barren).
Proof.
  apply (empty_fetch_is_minus_one (H := refRuntime) barren "t3.micro"
           "US East (N. Virginia)"%string); try reflexivity.
  repeat constructor.
Defined.

(** * Further properties *)

(** ** More on the spot averager *)


(** A sum of zero weights stays at zero or turns NaN. *)
Lemma zero_weight_step (acc price : float) :
  acc = float64.zero ∨ acc = nan →
  (acc + float64.zero * price)%float = float64.zero ∨
  (acc + float64.zero * price)%float = nan.
Proof.
  assert (Hsf : ∀ x : float, Prim2SF x = S754_zero false ∨ Prim2SF x = S754_nan →
                 x = float64.zero ∨ x = nan).
  { intros x [Hx|Hx]; [left|right]; by apply Prim2SF_inj. }
  intros [->| ->]; apply Hsf;
    rewrite FloatAxioms.add_spec, FloatAxioms.mul_spec;
    destruct (Prim2SF price) as [s|s| |s m e]; try destruct s; auto.
Qed.

Lemma lookup_StronglySorted {A} (R : A → A → Prop) (l : list A) :
  (∀ (i j : nat) x y, (i < j)%nat → l !! i = Some x → l !! j = Some y → R x y) →
  StronglySorted R l.
Proof.
  induction l as [|a l IH]; intros Hl; constructor.
  - apply IH. intros i j x y Hij Hi Hj. apply (Hl (S i) (S j)); [lia|done..].
  - apply Forall_forall. intros y Hy. apply list_elem_of_lookup in Hy as [j Hj].
    apply (Hl 0%nat (S j)); [lia|done..].
Qed.

Lemma same_timestamp_same_entry (l : list spotPricingEntry) (x y : spotPricingEntry) :
  NoDup (Timestamp <$> l) → x ∈ l → y ∈ l → Timestamp x = Timestamp y → x = y.
Proof.
  induction l as [|a l IH]; intros Hnd Hx Hy Ht; [by apply elem_of_nil in Hx|].
  rewrite fmap_cons in Hnd. apply NoDup_cons in Hnd as [Ha Hnd].
  apply elem_of_cons in Hx as [->|Hx], Hy as [->|Hy]; [done| | |by apply IH].
  - destruct Ha. rewrite Ht. by apply list_elem_of_fmap_2.
  - destruct Ha. rewrite <- Ht. by apply list_elem_of_fmap_2.
Qed.

Section MoreAveragerFacts.
Context `{Runtime}.

Lemma sortSlice_strongly (l : list spotPricingEntry) :
  StronglySorted (λ a b, Timestamp b ≤ Timestamp a) (sortSlice byTimestampDesc l).
Proof. apply lookup_StronglySorted. intros i j x y. apply sorted_descending. Qed.

(** Distinct timestamps leave [sort.Slice] no choice. *)
Lemma sortSlice_unique (l l' : list spotPricingEntry) :
  l ≡ₚ l' → NoDup (Timestamp <$> l) →
  sortSlice byTimestampDesc l = sortSlice byTimestampDesc l'.
Proof.
  intros Hperm Hnd.
  apply (StronglySorted_unique_strong (λ a b, Timestamp b ≤ Timestamp a));
    [|apply sortSlice_strongly..|].
  - intros x1 x2 Hx1 Hx2 H12 H21.
    rewrite sortSlice_perm in Hx1, Hx2. rewrite <- Hperm in Hx2.
    apply (same_timestamp_same_entry l); [done..|lia].
  - by rewrite !sortSlice_perm.
Qed.

Lemma zero_weights_sum (t : time.Time) (rest : list spotPricingEntry) (acc : float) :
  (∀ e, e ∈ rest → Timestamp e = t) →
  acc = float64.zero ∨ acc = nan →
  let sum := fold_left (λ acc '(w, e), (acc + w * SpotPrice e)%float)
                       (zip (weightsAfter t rest) rest) acc in
  sum = float64.zero ∨ sum = nan.
Proof.
  revert acc. induction rest as [|e rest IH]; intros acc Hall Hacc; [done|].
  cbn [weightsAfter zip zip_with fold_left].
  rewrite (Hall e) by (apply elem_of_cons; by left).
  rewrite Sub_diag, Minutes_zero. apply IH.
  - intros e' He'. apply Hall, elem_of_cons. by right.
  - by apply zero_weight_step.
Qed.

End MoreAveragerFacts.

(** X1. The order in which the observations of a zone arrive does not
    matter when their timestamps are distinct. *)
Theorem arrival_order_is_irrelevant `{Runtime} (l l' : list spotPricingEntry) :
  l ≡ₚ l' → NoDup (Timestamp <$> l) →
  calculateSpotAggregate l = calculateSpotAggregate l'.
Proof.
  intros Hperm Hnd. destruct l as [|e l].
  - apply Permutation_nil in Hperm. by subst.
  - assert (Hne' : l' ≠ []).
    { intros ->. symmetry in Hperm. by apply Permutation_nil_cons in Hperm. }
    rewrite (calculateSpotAggregate_sorted (e :: l)) by done.
    rewrite (calculateSpotAggregate_sorted l') by done.
    cbv zeta. by rewrite (sortSlice_unique (e :: l) l').
Qed.

Lemma arrival_order_is_irrelevant_witness :
  calculateSpotAggregate (H := refRuntime) (hourSeries 6)
  = calculateSpotAggregate (H := refRuntime) (reverse (hourSeries 6)).
Proof.
  apply (arrival_order_is_irrelevant (H := refRuntime)).
  - apply perm_swap.
  - unfold hourSeries. simpl. apply NoDup_cons. split; [|apply NoDup_singleton].
    intros Hin%list_elem_of_singleton. vm_compute in Hin. discriminate.
Defined.

(** X2. Observations that all carry one timestamp, however many, average
    to NaN: every weight and the span are zero. *)
Theorem one_instant_is_nan `{Runtime} (l : list spotPricingEntry) (t : time.Time) :
  l ≠ [] → (∀ e, e ∈ l → Timestamp e = t) → calculateSpotAggregate l = nan.
Proof.
  intros Hne Hall. rewrite (calculateSpotAggregate_sorted l Hne). cbv zeta.
  pose proof (sortSlice_perm _ byTimestampDesc l) as Hp.
  assert (Hs : ∀ e, e ∈ sortSlice byTimestampDesc l → Timestamp e = t).
  { intros e He. rewrite Hp in He. by apply Hall. }
  destruct (sortSlice byTimestampDesc l) as [|x rest] eqn:Es.
  { by apply Permutation_nil in Hp. }
  assert (Hx : Timestamp x = t) by (apply Hs, elem_of_cons; by left).
  assert (Hlast : Timestamp ((x :: rest) !!! (length (x :: rest) - 1)%nat) = t).
  { apply Hs. apply list_elem_of_lookup_total_2. simpl. lia. }
  rewrite Hlast. simpl. rewrite Hx, Sub_diag, Minutes_zero.
  unfold weightedPriceSum. simpl.
  destruct (zero_weights_sum t rest (float64.zero + float64.zero * SpotPrice x)%float)
    as [Hr|Hr].
  - intros e He. apply Hs, elem_of_cons. by right.
  - apply (zero_weight_step float64.zero). by left.
  - by rewrite Hr.
  - by rewrite Hr.
Qed.

Lemma one_instant_is_nan_witness :
  calculateSpotAggregate (H := refRuntime)
    [ {| Timestamp := 1700000000000000000; SpotPrice := 4 |};
      {| Timestamp := 1700000000000000000; SpotPrice := 8 |};
      {| Timestamp := 1700000000000000000; SpotPrice := 6 |} ] = nan.
Proof.
  apply (one_instant_is_nan (H := refRuntime) _ 1700000000000000000); [done|].
  intros e He. repeat (apply elem_of_cons in He as [->|He]; [done|]).
  by apply elem_of_nil in He.
Defined.






(** ** What the zone test lets through *)












(** ** The region description *)

Lemma region_fold `{Runtime} (parts : list (gmap string string))
    (region acc : string) :
  forEach parts
    (λ regions regionDescription,
       region ← deref (Some region);
       Returned (match regions !! region with
                 | Some description => description
                 | None => regionDescription
                 end)) acc
  = Returned (default acc (last (omap (λ regions, regions !! region) parts))).
Proof.
  revert acc. induction parts as [|regions parts IH]; intros acc; [done|].
  cbn [forEach]. cbn [deref mbind outcome_bind]. rewrite IH.
  cbn [omap list_omap].
  destruct (regions !! region) as [d|]; simpl; [|done].
  f_equal. destruct (omap _ parts) as [|d' ds] eqn:E; [done|].
  change (last (d :: d' :: ds)) with (last (d' :: ds)).
  by destruct (last (d' :: ds)) eqn:El; [|apply last_None in El].
Qed.

(** X5. The description sent to the pricing API is that of the last
    partition that lists the region of the session, and
    "US East (N. Virginia)" when no partition lists it; without a region
    in the session the lookup panics as soon as there is a partition to
    look into. *)
Theorem region_description `{Runtime} (p : EC2Pricing) :
  (∀ region, AWSSession p = Some region →
     getRegionForPricingAPI p
     = Returned (default "US East (N. Virginia)"%string
                   (last (omap (λ regions, regions !! region) Partitions)))) ∧
  (AWSSession p = None →
   getRegionForPricingAPI p
   = match Partitions with
     | [] => Returned "US East (N. Virginia)"%string
     | _ => Panicked
     end).
Proof.
  split.
  - intros region Hp. unfold getRegionForPricingAPI. rewrite Hp.
    apply region_fold.
  - intros Hp. unfold getRegionForPricingAPI.
    destruct Partitions as [|regions parts]; [done|]. cbn [forEach]. by rewrite Hp.
Qed.

Lemma region_description_witness :
  getRegionForPricingAPI (H := refRuntime) (offline ∅ ∅)
    = Returned "US East (N. Virginia)"%string ∧
  getRegionForPricingAPI (H := refRuntime)
    (New None (PricingClient (offline ∅ ∅)) (EC2Client (offline ∅ ∅)))
    = Panicked.
Proof.
  split.
  - apply (proj1 (region_description (H := refRuntime) (offline ∅ ∅))
             "us-east-1"%string). reflexivity.
  - apply (proj2 (region_description (H := refRuntime) _)). reflexivity.
Defined.

(** ** Hydration, then queries *)

Lemma list_to_map_reverse_lookup {V} (l : list (string * V)) (k : string) :
  (list_to_map (reverse l) : gmap string V) !! k
  = last (omap (λ '(k', v), if decide (k' = k) then Some v else None) l).
Proof.
  induction l as [|[k' v] l IH] using rev_ind; [done|].
  rewrite reverse_snoc, omap_app. cbn [list_to_map foldr uncurry fst snd omap list_omap].
  destruct (decide (k' = k)) as [->|Hne].
  - by rewrite lookup_insert_eq, last_snoc.
  - rewrite lookup_insert_ne by done. by rewrite app_nil_r.
Qed.

(** X6. After a hydration of the on-demand cache whose fetch succeeded,
    a query for an instance type the fetch priced is answered with the
    last price parsed for it, whatever the clients would answer now and
    with no error; an instance type the fetch did not price is not in the
    cache any more, whatever the cache held before. *)
Theorem hydrated_price_is_served `{Runtime} (p : EC2Pricing) (cTime : time.Time)
    (regionDescription : string) (results : list (string * float * option error)) :
  getRegionForPricingAPI p = Returned regionDescription →
  let fetched := PricingClient p (productInput regionDescription None) in
  failure fetched = None →
  Forall2 (λ doc r, parseOndemandUnitPrice doc = Returned r)
          (concat (pricing.PriceList <$> pages fetched)) results →
  ∃ err p',
    HydrateOndemandCache p cTime = Returned (err, p') ∧
    (∀ instanceType, onDemandCache p' !! instanceType = lastPriceOf instanceType results) ∧
    (∀ instanceType price,
       lastPriceOf instanceType results = Some price →
       GetOndemandInstanceTypeCost p' instanceType = Returned ((price, None), p')).
Proof.
  intros Hregion fetched Hfail Hdocs.
  eexists _, _. split_and!.
  - rewrite (HydrateOndemandCache_parsed p cTime regionDescription results Hregion Hdocs).
    fold fetched. rewrite Hfail. reflexivity.
  - intros it. simpl. apply list_to_map_reverse_lookup.
  - intros it price Hlast. unfold GetOndemandInstanceTypeCost. simpl.
    rewrite list_to_map_reverse_lookup. unfold lastPriceOf in Hlast. by rewrite Hlast.
Qed.

Lemma hydrated_price_is_served_witness :
  ∃ err p',
    HydrateOndemandCache (H := refRuntime) patchy 1700000300000000000
      = Returned (err, p') ∧
    onDemandCache p' !! "m5.large"%string = None ∧
    GetOndemandInstanceTypeCost (H := refRuntime) p' "t3.micro"
      = Returned ((0.0116%float, None), p').
Proof.
  destruct (hydrated_price_is_served (H := refRuntime) patchy 1700000300000000000
              "US East (N. Virginia)"%string
              [ ("t3.micro"%string, 0.0104%float, None);
                ("m5.large"%string, (-1)%float,
                 Some (Errorf "Could not convert price per unit in USD to a float64"));
                ("c5.large"%string, (-1)%float,
                 Some (Errorf "Unable to find pricing terms"));
                ("t3.micro"%string, 0.0116%float, None) ]
              eq_refl eq_refl ltac:(repeat constructor))
    as (err & p' & Hret & Hcache & Hquery).
  exists err, p'. split_and!; [done| |].
  - by rewrite Hcache.
  - by apply Hquery.
Defined.

(** ** On-demand queries that miss the cache *)

Section QueryPagingFacts.
Context `{Runtime}.

(** The terms loop pairs every error with the price -1 and the name it
    was given. *)
Lemma parseOndemandTerms_error (name : string) (terms : list (string * jvalue))
    (n : string) (pr : float) (e : error) :
  parseOndemandTerms name terms = Returned (n, pr, Some e) →
  n = name ∧ pr = minusOne.
Proof.
  induction terms as [|[sku v] terms IH]; cbn [parseOndemandTerms];
    [by intros [= <- <- _]|].
  destruct v as [| | | | |term]; try done. cbn [asMap mbind outcome_bind].
  destruct (term !! "priceDimensions"%string) as [dim|]; [|by intros [= <- <- _]].
  destruct dim as [| | | | |dimMap]; try done. cbn [asMap mbind outcome_bind].
  destruct (rangeMap dimMap) as [|[rate d] tail]; [exact IH|].
  destruct d as [| | | | |dims]; try done. cbn [asMap mbind outcome_bind].
  destruct (dims !! "pricePerUnit"%string) as [ppu|]; [|by intros [= <- <- _]].
  destruct ppu as [| | | | |perUnit]; try done. cbn [asMap mbind outcome_bind].
  destruct (perUnit !! "USD"%string) as [usd|]; [|by intros [= <- <- _]].
  destruct usd as [| | |str| |]; try done. cbn [asString mbind outcome_bind].
  destruct (ParseFloat str); [done|by intros [= <- <- _]].
Qed.

(** So does the parser, with a name that is empty or the one the record
    gives. *)
Lemma parseOndemandUnitPrice_error (priceList : gmap string jvalue)
    (n : string) (pr : float) (e : error) :
  parseOndemandUnitPrice priceList = Returned (n, pr, Some e) →
  pr = minusOne ∧ (n = EmptyString ∨ named priceList n).
Proof.
  unfold parseOndemandUnitPrice.
  destruct (priceList !! "product"%string) as [[| | | | |product]|] eqn:Hproduct;
    try done.
  cbn [asMap mbind outcome_bind].
  destruct (product !! "attributes"%string) as [attributes|] eqn:Hattrs;
    [|intros [= <- <- _]; split; [done|by left]].
  destruct attributes as [| | | | |attrs]; try done. cbn [asMap mbind outcome_bind].
  destruct (attrs !! "instanceType"%string) as [[| | |it| |]|] eqn:Hit;
    try (intros [= <- <- _]; split; [done|by left]).
  assert (Hnamed : named priceList it) by (by exists product, attrs).
  destruct (priceList !! "terms"%string) as [terms|];
    [|intros [= <- <- _]; split; [done|by right]].
  destruct terms as [| | | | |termsMap]; try done. cbn [asMap mbind outcome_bind].
  destruct (termsMap !! "OnDemand"%string) as [od|];
    [|intros [= <- <- _]; split; [done|by right]].
  destruct od as [| | | | |onDemand]; try done. cbn [asMap mbind outcome_bind].
  intros [-> ->]%parseOndemandTerms_error. split; [done|by right].
Qed.

Lemma parseOndemandUnitPrice_sentinel (priceList : gmap string jvalue)
    (n : string) (pr : float) (e : error) :
  parseOndemandUnitPrice priceList = Returned (n, pr, Some e) → pr = minusOne.
Proof. by intros [-> _]%parseOndemandUnitPrice_error. Qed.

Lemma onDemandQueryDocs_fails (pg : pricing.GetProductsOutput) (e : error)
    (st : float * option error) :
  failsWith pg e →
  onDemandQueryPage pg st
  = Returned ((minusOne, multierr.Append (snd st) (Some e)), true).
Proof.
  intros (parsed & doc & rest & name & price & Hpg & Hparsed & Hdoc).
  unfold onDemandQueryPage. rewrite Hpg. clear Hpg. revert st.
  induction Hparsed as [|d parsed (n & pr & Hd) _ IH]; intros st; simpl.
  - rewrite Hdoc. simpl. by rewrite (parseOndemandUnitPrice_sentinel _ _ _ _ Hdoc).
  - rewrite Hd. simpl. by rewrite IH.
Qed.

Lemma onDemandQueryDocs_whole (pg : pricing.GetProductsOutput)
    (st : float * option error) :
  parsesWhole pg →
  ∃ price, onDemandQueryPage pg st = Returned ((price, snd st), false).
Proof.
  unfold parsesWhole, onDemandQueryPage. revert st.
  induction (pricing.PriceList pg) as [|d docs IH]; intros st Hdocs; simpl.
  - exists (fst st). by destruct st.
  - apply Forall_cons in Hdocs as [(n & pr & Hd) Hdocs]. rewrite Hd. simpl.
    destruct (IH (pr, snd st) Hdocs) as [price Hprice]. by exists price.
Qed.

(** Pages that fail one after the other, then the rest of the fetch. *)
Lemma runPages_failing (bad : list pricing.GetProductsOutput) (errs : list error)
    (rest : list pricing.GetProductsOutput) (failure : option error)
    (st : float * option error) :
  Forall2 failsWith bad errs → errs ≠ [] →
  runPages (bad ++ rest) failure onDemandQueryPage st
  = runPages rest failure onDemandQueryPage
      (minusOne, fold_left (λ acc e, multierr.Append acc (Some e)) errs (snd st)).
Proof.
  intros Hbad. revert st. induction Hbad as [|pg e bad errs Hpg Hbad IH];
    intros st Hne; [done|].
  cbn [app runPages]. rewrite (onDemandQueryDocs_fails pg e st Hpg). simpl.
  destruct errs as [|e' errs].
  - apply Forall2_nil_inv_r in Hbad. by subst.
  - by rewrite IH.
Qed.

Lemma combined_is_some (errs : list error) : errs ≠ [] → is_Some (combined errs).
Proof.
  induction errs as [|e errs IH] using rev_ind; [done|]. intros _.
  rewrite combined_snoc. destruct (combined errs); by eexists.
Qed.

End QueryPagingFacts.

(** X7. A query that misses the on-demand cache and meets pages that
    fail to parse. When such pages come before one that parses as a
    whole, the query returns -1 with the errors of the failed pages
    combined, and the price that did parse is dropped; when every page
    fails to parse and the fetch then fails, the query returns -1 with
    the error of the transport alone. The facade is left as it was. *)
Theorem query_miss_after_parse_errors `{Runtime} (p : EC2Pricing)
    (instanceType regionDescription : string)
    (bad : list pricing.GetProductsOutput) (errs : list error) :
  onDemandCache p !! instanceType = None →
  getRegionForPricingAPI p = Returned regionDescription →
  let fetched := PricingClient p (productInput regionDescription (Some instanceType)) in
  Forall2 failsWith bad errs → errs ≠ [] →
  (∀ good rest, pages fetched = bad ++ good :: rest → parsesWhole good →
     ∃ e, combined errs = Some e ∧
          GetOndemandInstanceTypeCost p instanceType
          = Returned ((minusOne, Some e), p)) ∧
  (∀ e, pages fetched = bad → failure fetched = Some e →
     GetOndemandInstanceTypeCost p instanceType = Returned ((minusOne, Some e), p)).
Proof.
  intros Hmiss Hregion fetched Hbad Hne. split.
  - intros good rest Hpages Hgood.
    destruct (combined_is_some errs Hne) as [e He]. exists e. split; [done|].
    unfold GetOndemandInstanceTypeCost. rewrite Hmiss, Hregion.
    cbn [mbind outcome_bind]. fold fetched. rewrite Hpages.
    rewrite (runPages_failing bad errs _ _ _ Hbad Hne). cbn [runPages].
    destruct (onDemandQueryDocs_whole good
                (minusOne, fold_left (λ acc e, multierr.Append acc (Some e)) errs None)
                Hgood) as [price Hprice].
    simpl snd. rewrite Hprice. simpl. unfold combined in He. by rewrite He.
  - intros e Hpages Hfail.
    unfold GetOndemandInstanceTypeCost. rewrite Hmiss, Hregion.
    cbn [mbind outcome_bind]. fold fetched. rewrite Hpages, Hfail.
    rewrite <- (app_nil_r bad).
    rewrite (runPages_failing bad errs _ _ _ Hbad Hne). done.
Qed.

Lemma query_miss_after_parse_errors_witness :
  GetOndemandInstanceTypeCost (H := refRuntime) stumbling "m5.large"
  = Returned ((minusOne,
               Some (Errorf "Could not convert price per unit in USD to a float64")),
              stumbling) ∧
  GetOndemandInstanceTypeCost (H := refRuntime) failing "m5.large"
  = Returned ((minusOne, Some sendFailed), failing).
Proof.
  split.
  - destruct (proj1 (query_miss_after_parse_errors (H := refRuntime) stumbling
                       "m5.large" "US East (N. Virginia)"
                       [ {| pricing.PriceList := [ priceDoc "m5.large" "n/a" ] |} ]
                       [ Errorf "Could not convert price per unit in USD to a float64" ]
                       eq_refl eq_refl
                       ltac:(repeat constructor;
                             by exists [], (priceDoc "m5.large" "n/a"), [],
                                       "m5.large"%string, minusOne)
                       ltac:(done))
                {| pricing.PriceList := [ priceDoc "m5.large" "0.096" ] |} []
                eq_refl
                ltac:(repeat constructor; by exists "m5.large"%string, 0.096%float))
      as (e & He & Hret).
    injection He as <-. exact Hret.
  - apply (proj2 (query_miss_after_parse_errors (H := refRuntime) failing
                    "m5.large" "US East (N. Virginia)"
                    [ {| pricing.PriceList := [ termlessDoc "m5.large" ] |} ]
                    [ Errorf "Unable to find pricing terms" ]
                    eq_refl eq_refl
                    ltac:(repeat constructor;
                          by exists [], (termlessDoc "m5.large"), [],
                                    "m5.large"%string, minusOne)
                    ltac:(done))
             sendFailed eq_refl eq_refl).
Defined.

(** ** Spot queries that miss the cache *)

Lemma fileZone_lookup (events : list zoneEvent)
    (m : gmap string (list spotPricingEntry)) (z : string) :
  fold_left fileZone events m !! z
  = match zoneSeries z events with
    | [] => m !! z
    | es => Some ((m !!! z) ++ es)
    end.
Proof.
  revert m. induction events as [|ev events IH]; intros m; [done|].
  cbn [fold_left]. rewrite IH. unfold zoneSeries at 2. cbn [omap list_omap].
  fold (zoneSeries z events).
  destruct ev as [z' entry|str]; simpl; [|done].
  unfold appendAt. destruct (decide (z' = z)) as [->|Hne].
  - rewrite lookup_insert_eq, lookup_total_insert_eq.
    destruct (zoneSeries z events); simpl; [done|]. by rewrite <- app_assoc.
  - by rewrite lookup_insert_ne, lookup_total_insert_ne.
Qed.

Section SpotQueryFacts.
Context `{Runtime}.

Lemma spotQuery_records (records : list ec2.SpotPriceT) (events : list zoneEvent)
    (m : gmap string (list spotPricingEntry)) (err : option error) :
  Forall2 (λ history ev, readZoneEvent history = Some ev) records events →
  forEach records
    (λ history '(zoneToPriceEntries, processingErr),
       str ← deref (ec2.SpotPrice history);
       match ParseFloat str with
       | None =>
           Returned (zoneToPriceEntries,
                     multierr.Append processingErr (Some (NumError str)))
       | Some spotPrice =>
           zone ← deref (ec2.AvailabilityZone history);
           ts ← deref (ec2.Timestamp history);
           Returned (appendAt zone {| Timestamp := ts; SpotPrice := spotPrice |}
                              zoneToPriceEntries,
                     processingErr)
       end) (m, err)
  = Returned (fold_left fileZone events m,
              fold_left (λ acc e, multierr.Append acc (Some e)) (zoneErrors events) err).
Proof.
  intros Hrecs. revert m err.
  induction Hrecs as [|history ev records events Hev _ IH]; intros m err; [done|].
  cbn [forEach]. unfold readZoneEvent in Hev.
  destruct history as [az it sp ts]. simpl in *.
  destruct sp as [str|]; simpl in *; [|done].
  destruct (ParseFloat str) as [price|]; simpl in *.
  - destruct az as [az|]; simpl in *; [|done].
    destruct ts as [ts|]; simpl in *; [|done].
    injection Hev as <-. by rewrite IH.
  - injection Hev as <-. by rewrite IH.
Qed.

Lemma spotQuery_pages (ps : list ec2.DescribeSpotPriceHistoryOutput)
    (failure : option error)
    (st : gmap string (list spotPricingEntry) * option error) :
  runPages ps failure spotQueryPage st
  = (st' ← forEach (concat (ec2.SpotPriceHistory <$> ps))
       (λ history '(zoneToPriceEntries, processingErr),
          str ← deref (ec2.SpotPrice history);
          match ParseFloat str with
          | None =>
              Returned (zoneToPriceEntries,
                        multierr.Append processingErr (Some (NumError str)))
          | Some spotPrice =>
              zone ← deref (ec2.AvailabilityZone history);
              ts ← deref (ec2.Timestamp history);
              Returned (appendAt zone {| Timestamp := ts; SpotPrice := spotPrice |}
                                 zoneToPriceEntries,
                        processingErr)
          end) st;
     Returned (st', failure)).
Proof. apply (runPages_collect ec2.SpotPriceHistory). Qed.


End SpotQueryFacts.

(** X8. A spot query for an instance type that is not cached works on
    the records of its own fetch, zone by zone in order of arrival, and
    keeps nothing: the facade is left as it was. An error of the
    transport comes first, then the prices that did not parse, combined,
    and in both cases the figure is -1 and the prices that did parse are
    dropped; otherwise the figure is the average over the zones of the
    fetch. *)
Theorem spot_query_miss `{Runtime} (p : EC2Pricing) (now : time.Time)
    (instanceType : string) (availabilityZones : list string) (days : Z)
    (events : list zoneEvent) :
  spotCache p !! instanceType = None →
  let fetched := EC2Client p (spotPriceHistInput now days [instanceType]) in
  Forall2 (λ history ev, readZoneEvent history = Some ev)
          (concat (ec2.SpotPriceHistory <$> pages fetched)) events →
  ∃ zoneToPriceEntries : gmap string (list spotPricingEntry),
    (∀ zone, zoneToPriceEntries !! zone
             = match zoneSeries zone events with
               | [] => None
               | series => Some series
               end) ∧
    GetSpotInstanceTypeNDayAvgCost p now instanceType availabilityZones days
    = Returned
        (match failure fetched, combined (zoneErrors events) with
         | Some e, _ => (minusOne, Some e)
         | None, Some e => (minusOne, Some e)
         | None, None =>
             (averageOverZones zoneToPriceEntries availabilityZones, None)
         end, p).
Proof.
  intros Hmiss fetched Hrecs. exists (fold_left fileZone events ∅). split.
  - intros zone. rewrite fileZone_lookup, lookup_empty, lookup_total_empty.
    by destruct (zoneSeries zone events).
  - unfold GetSpotInstanceTypeNDayAvgCost. rewrite Hmiss. cbv zeta. fold fetched.
    rewrite spotQuery_pages, (spotQuery_records _ _ _ _ Hrecs). simpl.
    fold (combined (zoneErrors events)).
    destruct (failure fetched); [done|]. by destruct (combined (zoneErrors events)).
Qed.

Lemma spot_query_miss_witness :
  GetSpotInstanceTypeNDayAvgCost (H := refRuntime) patchy 1700000200000000000
    "t3.micro" [] 30
  = Returned ((minusOne, Some (NumError "?")), patchy).
Proof.
  destruct (spot_query_miss (H := refRuntime) patchy 1700000200000000000
              "t3.micro" [] 30
              [ ZonePriced "us-east-1a"
                  {| Timestamp := 1700000000000000000; SpotPrice := 0.0031 |};
                ZoneUnparsable "?";
                ZonePriced "us-east-1a"
                  {| Timestamp := 1700000120000000000; SpotPrice := 0.0035 |} ]
              eq_refl ltac:(repeat constructor))
    as (working & _ & Hret).
  exact Hret.
Defined.

(** ** A hydrated spot cache, then queries *)

Lemma fileEvent_lookup (events : list spotEvent)
    (cache : gmap string (gmap string (list spotPricingEntry)))
    (it z : string) :
  (fold_left fileEvent events cache !!! it) !! z
  = match seriesOf it z events with
    | [] => (cache !!! it) !! z
    | es => Some (((cache !!! it) !!! z) ++ es)
    end.
Proof.
  revert cache. induction events as [|ev events IH]; intros cache; [done|].
  cbn [fold_left]. rewrite IH. unfold seriesOf at 2. cbn [omap list_omap].
  fold (seriesOf it z events).
  destruct ev as [it' z' entry|str]; simpl; [|done].
  unfold appendAt. destruct (decide (it' = it ∧ z' = z)) as [[-> ->]|Hne].
  - rewrite !lookup_total_insert_eq, lookup_insert_eq.
    destruct (seriesOf it z events); simpl; [done|]. by rewrite <- app_assoc.
  - destruct (decide (it' = it)) as [->|Hit].
    + rewrite lookup_total_insert_eq.
      assert (z' ≠ z) by (intros ->; by apply Hne).
      by rewrite lookup_insert_ne, lookup_total_insert_ne.
    + by rewrite lookup_total_insert_ne.
Qed.

(** X9. After a hydration of the spot cache whose fetch succeeded, a
    query for an instance type the fetch had a price for is answered
    from the hydrated series, zone by zone in order of arrival, with no
    error and without a fetch of its own, whatever the clients would
    answer now. The cache is replaced, not merged: an instance type the
    fetch had no price for is not cached any more. *)
Theorem hydrated_series_are_served `{Runtime} (p : EC2Pricing)
    (now cTime : time.Time) (days : Z) (events : list spotEvent) :
  let fetched := EC2Client p (spotPriceHistInput now days []) in
  failure fetched = None →
  Forall2 (λ history ev, readSpotEvent history = Some ev)
          (concat (ec2.SpotPriceHistory <$> pages fetched)) events →
  ∃ err p',
    HydrateSpotCache p now cTime days = Returned (err, p') ∧
    (∀ instanceType,
       (∀ zone entry, Priced instanceType zone entry ∉ events) →
       spotCache p' !! instanceType = None) ∧
    ∀ instanceType zone0 entry0, Priced instanceType zone0 entry0 ∈ events →
      ∃ cached : gmap string (list spotPricingEntry),
        spotCache p' !! instanceType = Some cached ∧
        (∀ zone, cached !! zone
                 = match seriesOf instanceType zone events with
                   | [] => None
                   | series => Some series
                   end) ∧
        ∀ now' availabilityZones days',
          GetSpotInstanceTypeNDayAvgCost p' now' instanceType availabilityZones days'
          = Returned ((averageOverZones cached availabilityZones, None), p').
Proof.
  intros fetched Hfail Hrecs. eexists _, _. split_and!.
  - rewrite (HydrateSpotCache_read p now cTime days events Hrecs).
    fold fetched. rewrite Hfail. reflexivity.
  - intros it Hnone. simpl. apply eq_None_not_Some. intros Hsome.
    apply fileEvent_present in Hsome as [Hold|(z & entry & Hin)].
    + rewrite lookup_empty in Hold. by destruct Hold.
    + by apply (Hnone z entry).
  - intros it zone0 entry0 Hin. simpl.
    assert (Hsome : is_Some (fold_left fileEvent events ∅ !! it)).
    { apply fileEvent_present. right. by exists zone0, entry0. }
    destruct Hsome as [cached Hcached]. exists cached.
    assert (Hzones : ∀ zone, cached !! zone
                             = match seriesOf it zone events with
                               | [] => None
                               | series => Some series
                               end).
    { intros zone. rewrite <- (lookup_total_correct _ _ _ Hcached).
      rewrite fileEvent_lookup, !lookup_total_empty.
      by destruct (seriesOf it zone events). }
    split_and!; [done..|].
    intros now' zones days'. unfold GetSpotInstanceTypeNDayAvgCost. simpl.
    rewrite Hcached. rewrite copyCachedZones_nonempty; [done|].
    intros z es Hz. rewrite Hzones in Hz.
    destruct (seriesOf it z events); by simplify_eq.
Qed.

Lemma hydrated_series_are_served_witness :
  ∃ err p',
    HydrateSpotCache (H := refRuntime) patchy 1700000200000000000
      1700000300000000000 30 = Returned (err, p') ∧
    ∃ cached : gmap string (list spotPricingEntry),
      cached !! "us-east-1a"%string
      = Some [ {| Timestamp := 1700000000000000000; SpotPrice := 0.0031 |};
               {| Timestamp := 1700000120000000000; SpotPrice := 0.0035 |} ] ∧
      GetSpotInstanceTypeNDayAvgCost (H := refRuntime) p' 1700000400000000000
        "t3.micro" [] 7
      = Returned ((averageOverZones (H := refRuntime) cached [], None), p').
Proof.
  destruct (hydrated_series_are_served (H := refRuntime) patchy
              1700000200000000000 1700000300000000000 30
              [ Priced "t3.micro" "us-east-1a"
                  {| Timestamp := 1700000000000000000; SpotPrice := 0.0031 |};
                Unparsable "?";
                Priced "t3.micro" "us-east-1a"
                  {| Timestamp := 1700000120000000000; SpotPrice := 0.0035 |} ]
              eq_refl ltac:(repeat constructor))
    as (err & p' & Hret & _ & Hserved).
  exists err, p'. split; [done|].
  destruct (Hserved "t3.micro"%string "us-east-1a"%string
              {| Timestamp := 1700000000000000000; SpotPrice := 0.0031 |})
    as (cached & _ & Hzones & Hquery).
  { apply elem_of_cons. by left. }
  exists cached. split; [by rewrite Hzones|apply Hquery].
Defined.

(** ** The facade over a run of calls *)

Lemma forEach_invariant {X S} (P : S → Prop) (xs : list X)
    (body : X → S → outcome S) (st st' : S) :
  (∀ x s s', body x s = Returned s' → P s → P s') →
  P st → forEach xs body st = Returned st' → P st'.
Proof.
  intros Hbody. revert st. induction xs as [|x xs IH]; intros st Hst; simpl.
  - by intros [= <-].
  - destruct (body x st) as [s|] eqn:Hx; simpl; [|done].
    apply IH. by apply (Hbody x st).
Qed.

Lemma runPages_invariant {P S} (Q : S → Prop) (ps : list P)
    (failure : option error) (fn : P → S → outcome (S * bool))
    (st st' : S) (errAPI : option error) :
  (∀ pg s s' more, fn pg s = Returned (s', more) → Q s → Q s') →
  Q st → runPages ps failure fn st = Returned (st', errAPI) → Q st'.
Proof.
  intros Hfn. revert st. induction ps as [|pg ps IH]; intros st Hst; simpl.
  - by intros [= <- _].
  - destruct (fn pg st) as [[s more]|] eqn:Hpg; simpl; [|done].
    pose proof (Hfn pg st s more Hpg Hst) as Hs.
    destruct more; [by apply IH|]. by intros [= <- _].
Qed.

Section FacadeFacts.
Context `{Runtime}.



End FacadeFacts.



(** X11. The two hydrations write to different places: a hydration of
    the on-demand cache leaves the spot cache and its timestamp alone,
    and the other way round. *)
Theorem hydrations_write_apart `{Runtime} :
  (∀ (p p' : EC2Pricing) (cTime : time.Time) (err : option error),
     HydrateOndemandCache p cTime = Returned (err, p') →
     spotCache p' = spotCache p ∧ LastSpotCacheUTC p' = LastSpotCacheUTC p) ∧
  (∀ (p p' : EC2Pricing) (now cTime : time.Time) (days : Z) (err : option error),
     HydrateSpotCache p now cTime days = Returned (err, p') →
     onDemandCache p' = onDemandCache p ∧
     LastOnDemandCacheUTC p' = LastOnDemandCacheUTC p).
Proof.
  split.
  - intros p p' cTime err. unfold HydrateOndemandCache.
    destruct (getRegionForPricingAPI p) as [rd|]; simpl; [|done].
    destruct (runPages _ _ _ _) as [[[cache perr] [e|]]|]; simpl; [| |done];
      by intros [= _ <-].
  - intros p p' now cTime days err. unfold HydrateSpotCache. cbv zeta.
    destruct (runPages _ _ _ _) as [[[cache perr] [e|]]|]; simpl; [| |done];
      by intros [= _ <-].
Qed.

Lemma hydrations_write_apart_witness :
  ∃ err p',
    HydrateSpotCache (H := refRuntime) patchy 1700000200000000000
      1700000300000000000 30 = Returned (err, p') ∧
    onDemandCache p' = {[ "m5.large"%string := 0.096%float ]} ∧
    LastOnDemandCacheUTC p' = Some 1690000000000000000.
Proof.
  eexists _, _. split; [reflexivity|].
  apply (proj2 (hydrations_write_apart (H := refRuntime)) patchy _
           1700000200000000000 1700000300000000000 30 (Some (NumError "?"))).
  reflexivity.
Defined.

Section WorkingSetFacts.
Context `{Runtime}.

Lemma spotQueryPage_nonempty (pg : ec2.DescribeSpotPriceHistoryOutput)
    (st st' : gmap string (list spotPricingEntry) * option error) (more : bool) :
  spotQueryPage pg st = Returned (st', more) →
  (∀ z es, st.1 !! z = Some es → es ≠ []) →
  (∀ z es, st'.1 !! z = Some es → es ≠ []).
Proof.
  unfold spotQueryPage.
  destruct (forEach _ _ st) as [s|] eqn:Hpg; simpl; [|done].
  intros [= <- _] Hst. revert Hpg.
  apply (forEach_invariant
           (λ s : gmap string (list spotPricingEntry) * option error,
              ∀ z es, s.1 !! z = Some es → es ≠ [])); [|exact Hst].
  clear Hst. intros history [m perr] s'. unfold deref, mbind, outcome_bind. simpl.
  destruct (ec2.SpotPrice history) as [str|]; [|done].
  destruct (ParseFloat str) as [price|]; [|by intros [= <-]].
  destruct (ec2.AvailabilityZone history) as [z'|]; [|done].
  destruct (ec2.Timestamp history) as [ts|]; [|done].
  intros [= <-] Hinv z es. simpl in Hinv |- *. unfold appendAt.
  destruct (decide (z' = z)) as [->|Hz].
  - rewrite lookup_insert_eq. intros [= <-]. by destruct (m !!! z).
  - rewrite lookup_insert_ne by done. apply Hinv.
Qed.

End WorkingSetFacts.

(** X12. Every zone a spot query averages has at least one observation,
    from the cache or from the fetch: the value 0.0 that
    calculateSpotAggregate has for an empty series never enters the
    figure of a query. *)
Theorem averaged_zones_have_observations `{Runtime} :
  (∀ (cached : gmap string (list spotPricingEntry)) zone series,
     copyCachedZones cached !! zone = Some series → series ≠ []) ∧
  (∀ (ps : list ec2.DescribeSpotPriceHistoryOutput) (failure errAPI : option error)
     (zoneToPriceEntries : gmap string (list spotPricingEntry))
     (processingErr : option error) zone series,
     runPages ps failure spotQueryPage (∅, None)
       = Returned ((zoneToPriceEntries, processingErr), errAPI) →
     zoneToPriceEntries !! zone = Some series → series ≠ []).
Proof.
  split.
  - intros cached zone series. rewrite copyCachedZones_lookup.
    destruct (cached !! zone) as [[|e es]|]; try done. by intros [= <-].
  - intros ps failure errAPI m perr zone series Hrun. revert Hrun zone series.
    apply (runPages_invariant
             (λ s : gmap string (list spotPricingEntry) * option error,
                ∀ z es, s.1 !! z = Some es → es ≠ [])
             _ _ _ (∅, None) (m, perr)).
    + intros pg s s' more. apply spotQueryPage_nonempty.
    + intros z es Hz. simpl in Hz. by rewrite lookup_empty in Hz.
Qed.

Lemma averaged_zones_have_observations_witness :
  copyCachedZones (H := refRuntime)
    {[ "us-east-1a"%string := hourSeries 4; "us-east-1b"%string := [] ]}
    !! "us-east-1a"%string = Some (hourSeries 4) ∧
  hourSeries 4 ≠ [].
Proof.
  split; [reflexivity|].
  apply (proj1 (averaged_zones_have_observations (H := refRuntime))
           {[ "us-east-1a"%string := hourSeries 4; "us-east-1b"%string := [] ]}
           "us-east-1a"%string).
  reflexivity.
Defined.

(** ** Records the parser answers *)

Lemma allValues_range `{Runtime} (check : jvalue → bool) (m : gmap string jvalue) :
  allValues check m = true → Forall (λ kv, check kv.2 = true) (rangeMap m).
Proof.
  unfold allValues. rewrite forallb_forall, rangeMap_perm, Forall_forall.
  intros Hall kv Hkv. apply Hall. by apply list_elem_of_In.
Qed.

Section ShapeFacts.
Context `{Runtime}.

Lemma parseOndemandTerms_returns (name : string) (terms : list (string * jvalue)) :
  Forall (λ kv, shapedTerm kv.2 = true) terms →
  ∃ r, parseOndemandTerms name terms = Returned r.
Proof.
  induction 1 as [|[k v] terms Hv _ IH]; [by eexists|].
  cbn [parseOndemandTerms]. unfold shapedTerm, isObject in Hv. simpl in Hv.
  destruct v as [| | | | |term]; try done. cbn [asMap mbind outcome_bind].
  unfold objectAt in Hv.
  destruct (term !! "priceDimensions"%string) as [dim|]; [|by eexists].
  destruct dim as [| | | | |dimMap]; try done. cbn [asMap mbind outcome_bind].
  apply allValues_range in Hv.
  destruct (rangeMap dimMap) as [|[k' d] tail]; [exact IH|].
  apply Forall_cons in Hv as [Hd _]. simpl in Hd. unfold isObject in Hd.
  destruct d as [| | | | |dims]; try done. cbn [asMap mbind outcome_bind].
  unfold objectAt in Hd.
  destruct (dims !! "pricePerUnit"%string) as [ppu|]; [|by eexists].
  destruct ppu as [| | | | |perUnit]; try done. cbn [asMap mbind outcome_bind].
  unfold stringAt in Hd.
  destruct (perUnit !! "USD"%string) as [usd|]; [|by eexists].
  destruct usd as [| | |str| |]; try done. cbn [asString mbind outcome_bind].
  destruct (ParseFloat str); by eexists.
Qed.

End ShapeFacts.

(** X13. On a record with the nesting it takes for granted the parser
    does not panic: it returns a name, a price and possibly an error. *)
Theorem shaped_record_is_answered `{Runtime} (priceList : gmap string jvalue) :
  shaped priceList = true → ∃ r, parseOndemandUnitPrice priceList = Returned r.
Proof.
  unfold shaped, parseOndemandUnitPrice. intros Hs.
  destruct (priceList !! "product"%string) as [[| | | | |product]|]; try done.
  cbn [asMap mbind outcome_bind]. apply andb_true_iff in Hs as [Hattrs Hterms].
  unfold objectAt in Hattrs, Hterms.
  destruct (product !! "attributes"%string) as [attributes|]; [|by eexists].
  destruct attributes as [| | | | |attrs]; try done. cbn [asMap mbind outcome_bind].
  destruct (attrs !! "instanceType"%string) as [[| | |name| |]|]; try by eexists.
  destruct (priceList !! "terms"%string) as [terms|]; [|by eexists].
  destruct terms as [| | | | |termsMap]; try done. cbn [asMap mbind outcome_bind].
  destruct (termsMap !! "OnDemand"%string) as [od|]; [|by eexists].
  destruct od as [| | | | |onDemand]; try done. cbn [asMap mbind outcome_bind].
  apply parseOndemandTerms_returns. by apply allValues_range.
Qed.

Lemma shaped_record_is_answered_witness :
  ∃ r, parseOndemandUnitPrice (H := refRuntime) (priceDoc "t3.micro" "n/a")
       = Returned r.
Proof.
  apply (shaped_record_is_answered (H := refRuntime)). reflexivity.
Defined.

Section AnswerFacts.
Context `{Runtime}.

Lemma rangeMap_lookup (m : gmap string jvalue) (k : string) (v : jvalue) :
  (k, v) ∈ rangeMap m → m !! k = Some v.
Proof. rewrite rangeMap_perm. apply elem_of_map_to_list. Qed.

Lemma rangeMap_singleton (k : string) (v : jvalue) :
  rangeMap ({[ k := v ]} : gmap string jvalue) = [(k, v)].
Proof.
  pose proof (rangeMap_perm _ ({[ k := v ]} : gmap string jvalue)) as Hp.
  rewrite map_to_list_singleton in Hp. by apply Permutation_singleton_r in Hp.
Qed.

Lemma parseOndemandTerms_quoted (name : string) (terms : list (string * jvalue))
    (n : string) (pr : float) :
  parseOndemandTerms name terms = Returned (n, pr, None) →
  n = name ∧
  ∃ sku term usd,
    (sku, term) ∈ terms ∧ quotedBy term usd ∧ ParseFloat usd = Some pr.
Proof.
  induction terms as [|[sku v] terms IH]; [done|].
  cbn [parseOndemandTerms].
  destruct v as [| | | | |term]; try done. cbn [asMap mbind outcome_bind].
  destruct (term !! "priceDimensions"%string) as [dim|] eqn:Hdim; [|done].
  destruct dim as [| | | | |dimMap]; try done. cbn [asMap mbind outcome_bind].
  destruct (rangeMap dimMap) as [|[rate d] tail] eqn:Hrange.
  { intros Hrest. destruct (IH Hrest) as (-> & sku' & term' & usd & Hin & Hq & Hp).
    split; [done|]. exists sku', term', usd. split; [by right|done]. }
  destruct d as [| | | | |dims]; try done. cbn [asMap mbind outcome_bind].
  destruct (dims !! "pricePerUnit"%string) as [ppu|] eqn:Hppu; [|done].
  destruct ppu as [| | | | |perUnit]; try done. cbn [asMap mbind outcome_bind].
  destruct (perUnit !! "USD"%string) as [usd|] eqn:Husd; [|done].
  destruct usd as [| | |str| |]; try done. cbn [asString mbind outcome_bind].
  destruct (ParseFloat str) as [price|] eqn:Hprice; [|done].
  intros [= <- <-]. split; [done|].
  exists sku, (JObject term), str. split; [by left|]. split; [|done].
  exists term, dimMap, rate, dims, perUnit. split_and!; try done.
  apply rangeMap_lookup. rewrite Hrange. by left.
Qed.

End AnswerFacts.

(** X14. What the parser answers. An error always comes with the price
    -1, and with a name that is empty or the instance type the record
    names. An answer without an error carries the instance type the
    record names and the value ParseFloat gives for a price per unit in
    USD that one of the record's on-demand terms quotes. *)
Theorem parser_answer_is_grounded `{Runtime} (priceList : gmap string jvalue)
    (name : string) (price : float) (err : option error) :
  parseOndemandUnitPrice priceList = Returned (name, price, err) →
  match err with
  | Some _ => price = minusOne ∧ (name = EmptyString ∨ named priceList name)
  | None =>
      named priceList name ∧
      ∃ usd, quoted priceList usd ∧ ParseFloat usd = Some price
  end.
Proof.
  intros Hparse. destruct err as [e|].
  - by eapply parseOndemandUnitPrice_error.
  - revert Hparse. unfold parseOndemandUnitPrice.
    destruct (priceList !! "product"%string) as [[| | | | |product]|] eqn:Hproduct;
      try done.
    cbn [asMap mbind outcome_bind].
    destruct (product !! "attributes"%string) as [attributes|] eqn:Hattrs; [|done].
    destruct attributes as [| | | | |attrs]; try done. cbn [asMap mbind outcome_bind].
    destruct (attrs !! "instanceType"%string) as [[| | |it| |]|] eqn:Hit; try done.
    destruct (priceList !! "terms"%string) as [terms|] eqn:Hterms; [|done].
    destruct terms as [| | | | |termsMap]; try done. cbn [asMap mbind outcome_bind].
    destruct (termsMap !! "OnDemand"%string) as [od|] eqn:Hod; [|done].
    destruct od as [| | | | |onDemand]; try done. cbn [asMap mbind outcome_bind].
    intros Hloop.
    apply parseOndemandTerms_quoted in Hloop
      as (-> & sku & term & usd & Hin & Hq & Hp).
    split; [by exists product, attrs|].
    exists usd. split; [|done].
    exists termsMap, onDemand, sku, term. split_and!; try done.
    by apply rangeMap_lookup.
Qed.

Lemma parser_answer_is_grounded_witness :
  minusOne = minusOne ∧
  ("t3.micro"%string = EmptyString ∨ named (termlessDoc "t3.micro") "t3.micro").
Proof.
  apply (parser_answer_is_grounded (H := refRuntime) (termlessDoc "t3.micro")
           "t3.micro" minusOne (Some (Errorf "Unable to find pricing terms"))).
  reflexivity.
Defined.

(** X15. A record as the catalog sends it is read back. When the record
    names its instance type, has one on-demand term and that term one
    price dimension, whatever their keys and whatever else the objects
    hold, the parser returns the instance type and the value of the
    dimension's price per unit in USD, with no error; when that string is
    no number, it returns the instance type, -1 and the conversion
    error. *)
Theorem catalog_record_is_read_back `{Runtime}
    (priceList product attrs terms term dims perUnit : gmap string jvalue)
    (instanceType sku rate usd : string) :
  priceList !! "product"%string = Some (JObject product) →
  product !! "attributes"%string = Some (JObject attrs) →
  attrs !! "instanceType"%string = Some (JString instanceType) →
  priceList !! "terms"%string = Some (JObject terms) →
  terms !! "OnDemand"%string = Some (JObject {[ sku := JObject term ]}) →
  term !! "priceDimensions"%string = Some (JObject {[ rate := JObject dims ]}) →
  dims !! "pricePerUnit"%string = Some (JObject perUnit) →
  perUnit !! "USD"%string = Some (JString usd) →
  parseOndemandUnitPrice priceList
  = Returned
      match ParseFloat usd with
      | Some price => (instanceType, price, None)
      | None =>
          (instanceType, minusOne,
           Some (Errorf "Could not convert price per unit in USD to a float64"))
      end.
Proof.
  intros Hproduct Hattrs Hit Hterms Hod Hdim Hppu Husd.
  unfold parseOndemandUnitPrice.
  rewrite Hproduct. cbn [asMap mbind outcome_bind].
  rewrite Hattrs. cbn [asMap mbind outcome_bind].
  rewrite Hit, Hterms. cbn [asMap mbind outcome_bind].
  rewrite Hod. cbn [asMap mbind outcome_bind].
  rewrite rangeMap_singleton. cbn [parseOndemandTerms asMap mbind outcome_bind].
  rewrite Hdim. cbn [asMap mbind outcome_bind].
  rewrite rangeMap_singleton. cbn [asMap mbind outcome_bind].
  rewrite Hppu. cbn [asMap mbind outcome_bind].
  rewrite Husd. cbn [asString mbind outcome_bind].
  by destruct (ParseFloat usd).
Qed.

Lemma catalog_record_is_read_back_witness :
  parseOndemandUnitPrice (H := refRuntime) (priceDoc "t3.micro" "0.5")
  = Returned ("t3.micro"%string, 0.5%float, None).
Proof.
  apply (catalog_record_is_read_back (H := refRuntime)
           (priceDoc "t3.micro" "0.5")
           {[ "attributes"%string :=
                obj [ ("instanceType"%string, JString "t3.micro") ] ]}
           {[ "instanceType"%string := JString "t3.micro" ]}
           {[ "OnDemand"%string :=
                JObject {[ "SKU.JRTCKXETXF"%string :=
                  JObject {[ "priceDimensions"%string :=
                    JObject {[ "SKU.JRTCKXETXF.6YS6EN2CT7"%string :=
                      JObject {[ "pricePerUnit"%string :=
                        JObject {[ "USD"%string := JString "0.5" ]} ]} ]} ]} ]} ]}
           {[ "priceDimensions"%string :=
                JObject {[ "SKU.JRTCKXETXF.6YS6EN2CT7"%string :=
                  JObject {[ "pricePerUnit"%string :=
                    JObject {[ "USD"%string := JString "0.5" ]} ]} ]} ]}
           {[ "pricePerUnit"%string := JObject {[ "USD"%string := JString "0.5" ]} ]}
           {[ "USD"%string := JString "0.5" ]}
           "t3.micro" "SKU.JRTCKXETXF" "SKU.JRTCKXETXF.6YS6EN2CT7" "0.5");
    reflexivity.
Defined.

(** X16. The window of the spot price history request. For a count of
    days up to 106751 in size the request asks for the records between
    [days] times 24 hours before the clock reading and the reading
    itself, so a count of zero or less asks for a window that is empty or
    ends before it starts. Between 106752 and 213503 days the 64-bit
    duration wraps around and the window starts after the reading. *)
Theorem history_window (now : time.Time) (days : Z) (instanceTypes : list string) :
  let input := spotPriceHistInput now days instanceTypes in
  ec2.EndTime input = now ∧
  (-106751 ≤ days ≤ 106751 →
   ec2.StartTime input = now - days * (24 * time.Hour) ∧
   time.Sub (ec2.EndTime input) (ec2.StartTime input) = days * (24 * time.Hour)) ∧
  (106752 ≤ days ≤ 213503 →
   time.After (ec2.StartTime input) (ec2.EndTime input) = true).
Proof.
  cbv zeta. unfold spotPriceHistInput. cbn [ec2.EndTime ec2.StartTime].
  split; [done|].
  unfold time.Add, time.wrap64, time.Sub, time.After, time.Hour, time.Minute,
    time.Second, time.minDuration, time.maxDuration.
  split.
  - intros Hdays.
    rewrite (Z.mod_small (24 * -1 * days + 2 ^ 63)) by lia.
    rewrite Z.mod_small by lia.
    split; [lia|].
    repeat case_match; lia.
  - intros Hdays.
    rewrite (Z.mod_small (24 * -1 * days + 2 ^ 63)) by lia.
    apply Z.ltb_lt.
    assert (Hwrap : (60 * (60 * 1000000000) * (24 * -1 * days + 2 ^ 63 - 2 ^ 63) + 2 ^ 63)
                    mod 2 ^ 64
                    = 60 * (60 * 1000000000) * (24 * -1 * days) + 2 ^ 63 + 2 ^ 64).
    { symmetry. apply (Z.mod_unique _ _ (-1)); lia. }
    rewrite Hwrap. lia.
Qed.

Lemma history_window_witness :
  let input := spotPriceHistInput 1700000000000000000 7 [] in
  ec2.StartTime input = 1699395200000000000 ∧
  time.Sub (ec2.EndTime input) (ec2.StartTime input) = 7 * (24 * time.Hour).
Proof.
  apply (proj1 (proj2 (history_window 1700000000000000000 7 []))). lia.
Defined.
